(** * GlobMart_BE: product images, the Bunny CDN storage client and the
      migration script

    A shallow embedding of
    - [src/database/models/ProductImage.js]: the [ProductImage] model, its
      [cdn_url] getter, [isPrimary], and the [beforeValidate] /
      [beforeCreate] hooks;
    - [src/services/BunnyCDNService.js]: [isConfigured], [getPublicUrl],
      [generateProductImageKey], [deleteFile], [deleteFiles], [uploadFile],
      [testConnection];
    - [scripts/migrate-to-bunny-cdn.js]: [migrateToBunnyCDN].

    JavaScript strings are modelled by [string] (one character per code
    unit, code units below 256).  A value that may be [undefined] or [null]
    is an [option]; the code never tells the two apart where it is modelled
    here.  Integers are [Z].  Calls to [logger] and [console] write text
    that nothing reads back; they are left out. *)

From Stdlib Require Import String Ascii List ZArith NArith Bool Lia Permutation.
From Stdlib Require Import DecimalString.
Import ListNotations.

Open Scope string_scope.
Open Scope bool_scope.

(** ** JavaScript string primitives *)

Module JS.

(** Truthiness of a string-or-undefined value: [undefined], [null] and the
    empty string are falsy. *)
Definition truthy (v : option string) : bool :=
  match v with
  | Some s => negb (s =? "")
  | None => false
  end.

(** [a || d] for a string-or-undefined [a] and a string [d]. *)
Definition or_else (v : option string) (d : string) : string :=
  match v with
  | Some s => if s =? "" then d else s
  | None => d
  end.

(** [`${v}`] in a template literal. *)
Definition to_str (v : option string) : string :=
  match v with
  | Some s => s
  | None => "undefined"
  end.

(** [s.startsWith(p)]. *)
Fixpoint startsWith (s p : string) {struct p} : bool :=
  match p with
  | EmptyString => true
  | String a p' =>
      match s with
      | EmptyString => false
      | String b s' => Ascii.eqb a b && startsWith s' p'
      end
  end.

(** [s.includes(p)]. *)
Fixpoint includes (s p : string) : bool :=
  startsWith s p ||
  match s with
  | EmptyString => false
  | String _ s' => includes s' p
  end.

(** The characters of [s] from index [n] on. *)
Fixpoint drop (n : nat) (s : string) : string :=
  match n, s with
  | O, _ => s
  | S _, EmptyString => EmptyString
  | S n', String _ s' => drop n' s'
  end.

(** [s.replace(p, r)] for a string pattern [p]: only the first occurrence
    is replaced ([r] holds no [$] pattern where the code calls it). *)
Fixpoint replace (s p r : string) : string :=
  if startsWith s p then r ++ drop (String.length p) s
  else match s with
       | EmptyString => EmptyString
       | String c s' => String c (replace s' p r)
       end.

(** [s.split(sep)] for a non-empty separator: occurrences are found left
    to right and do not overlap.  [skip] counts the characters of a
    separator occurrence that are still to be passed over. *)
Fixpoint split_skip (sep : string) (skip : nat) (s : string) : list string :=
  match s with
  | EmptyString => [EmptyString]
  | String c s' =>
      match skip with
      | S k => split_skip sep k s'
      | O =>
          if startsWith s sep
          then EmptyString :: split_skip sep (String.length sep - 1) s'
          else match split_skip sep 0 s' with
               | piece :: rest => String c piece :: rest
               | [] => [String c EmptyString]
               end
      end
  end.

Definition split (s sep : string) : list string := split_skip sep 0 s.

(** [l.slice(1)]. *)
Definition slice1 {A : Type} (l : list A) : list A := tl l.

(** [l.join(sep)]. *)
Definition join (l : list string) (sep : string) : string :=
  String.concat sep l.

(** [s.substring(a, b)] for [a <= b]. *)
Definition substring (a b : nat) (s : string) : string :=
  String.substring a (b - a) s.

(** Decimal rendering of a non-negative integer, as [`${n}`] gives it for
    the integers a JavaScript number prints without an exponent. *)
Definition of_N (n : N) : string := NilZero.string_of_uint (N.to_uint n).

End JS.

(** ** The ProductImage model *)

Module ProductImage.

Inductive SizeVariant := original | thumb | medium | large.

(** One instance of the model (a row of [product_images] once saved).
    [id] is absent until the row is inserted; [position] is absent when
    the instance carries [undefined] or [null] there. *)
Record t := mk {
  id : option Z;
  product_id : Z;
  s3_key : option string;
  url : option string;
  alt : option string;
  position : option Z;
  width : option Z;
  height : option Z;
  size_variant : SizeVariant;
  file_size : option Z;
  content_type : option string;
  image_hash : option string
}.

Definition withUrl (r : t) (u : option string) : t :=
  mk (id r) (product_id r) (s3_key r) u (alt r) (position r) (width r)
     (height r) (size_variant r) (file_size r) (content_type r)
     (image_hash r).

Definition withAlt (r : t) (a : option string) : t :=
  mk (id r) (product_id r) (s3_key r) (url r) a (position r) (width r)
     (height r) (size_variant r) (file_size r) (content_type r)
     (image_hash r).

Definition withPosition (r : t) (p : option Z) : t :=
  mk (id r) (product_id r) (s3_key r) (url r) (alt r) p (width r)
     (height r) (size_variant r) (file_size r) (content_type r)
     (image_hash r).

Definition withId (r : t) (i : option Z) : t :=
  mk i (product_id r) (s3_key r) (url r) (alt r) (position r) (width r)
     (height r) (size_variant r) (file_size r) (content_type r)
     (image_hash r).

(** [isPrimary()]: [this.position === 0]. *)
Definition isPrimary (r : t) : bool :=
  match position r with
  | Some p => (p =? 0)%Z
  | None => false
  end.

(** [process.env.STORAGE_SERVER_BASE_URL || 'https://prestious.b-cdn.net'],
    the CDN base both URL getters use; [base] is the environment variable. *)
Definition bunnyCDNUrl (base : option string) : string :=
  JS.or_else base "https://prestious.b-cdn.net".

(** [getFullS3Url()]. *)
Definition getFullS3Url (base : option string) (r : t) : option string :=
  if JS.truthy (s3_key r)
  then Some (bunnyCDNUrl base ++ "/" ++ JS.to_str (s3_key r))
  else url r.

(** The three tests [cdn_url] makes on [this.url]. *)
Definition is_absolute_http (u : string) : bool :=
  JS.startsWith u "http://" || JS.startsWith u "https://".

Definition on_placeholder_host (u : string) : bool :=
  JS.includes u "via.placeholder.com" ||
  JS.includes u "placeholder.com" ||
  JS.includes u "picsum.photos" ||
  JS.includes u "unsplash.com" ||
  JS.includes u "loremflickr.com".

Definition on_bunny_host (u : string) : bool :=
  JS.includes u "b-cdn.net" || JS.includes u "bunnycdn.com".

(** The path [cdn_url] derives from a non-empty [s3_key]. *)
Definition imagePath (key : string) : string :=
  if JS.includes key "amazonaws.com/" then
    let urlParts := JS.split key "amazonaws.com/" in
    match urlParts with
    | _ :: part1 :: _ => part1
    | _ => key
    end
  else if JS.includes key "s3://" then
    JS.join (JS.slice1 (JS.split (JS.replace key "s3://" "") "/")) "/"
  else key.

(** The [cdn_url] getter.  [base] is [process.env.STORAGE_SERVER_BASE_URL].
    [fromKey] is the code after the first [if], where every path that does
    not return [this.url] early ends up. *)
Definition cdn_url (base : option string) (r : t) : option string :=
  let fromKey :=
    if JS.truthy (s3_key r)
    then Some (bunnyCDNUrl base ++ "/" ++ imagePath (JS.to_str (s3_key r)))
    else url r in
  if JS.truthy (url r) && is_absolute_http (JS.to_str (url r)) then
    if on_placeholder_host (JS.to_str (url r)) then url r
    else if on_bunny_host (JS.to_str (url r)) then url r
    else fromKey
  else fromKey.

(** The stored [url] is returned as it is by the first [if] of [cdn_url]:
    an absolute HTTP(S) URL on a placeholder host or on a Bunny CDN host. *)
Definition returns_url_early (r : t) : bool :=
  JS.truthy (url r) && is_absolute_http (JS.to_str (url r)) &&
  (on_placeholder_host (JS.to_str (url r)) || on_bunny_host (JS.to_str (url r))).

End ProductImage.

(** ** Effects: the database, the HTTP collaborator and thrown errors *)

Module Effects.

Inductive Method := GET | PUT | DELETE.

(** One axios request: method, URL, headers and (for PUT) the body. *)
Record Request := mkRequest {
  method : Method;
  target : string;
  headers : list (string * string);
  body : list Byte.byte
}.

(** What axios does with a request: it resolves with the response status
    (any 2xx), or rejects with an error whose [message] is set and whose
    [response] (status, statusText) is set when the server answered. *)
Inductive Reply :=
| Resolved (status : Z)
| Rejected (message : string) (status : option Z) (statusText : option string).

(** A JavaScript [Error] as the code reads it: [error.message],
    [error.response?.status] and [error.response?.statusText]. *)
Record JsError := mkError {
  message : string;
  response_status : option Z;
  response_statusText : option string
}.

(** [new Error(msg)]. *)
Definition Error (msg : string) : JsError := mkError msg None None.

Inductive Query :=
| CountImages
| CountProductsWithImages
| FindAllImages (limit : nat)
| DestroyAllImages
| MaxPosition (product_id : Z)
| FindProductByPk (id : Z)
| InsertImage.

(** The calls made to the two collaborators, oldest first. *)
Inductive Event :=
| Http (r : Request)
| Db (q : Query).

Record Product := mkProduct {
  product_pk : Z;
  title : string;
  slug : string
}.

(** The state the code runs against: the two tables, the next
    auto-increment id of [product_images], and the calls made so far. *)
Record World := mkWorld {
  products : list Product;
  product_images : list ProductImage.t;
  next_image_id : Z;
  log : list Event
}.

Definition record (e : Event) (w : World) : World :=
  mkWorld (products w) (product_images w) (next_image_id w) (log w ++ [e]).

Definition setImages (rows : list ProductImage.t) (w : World) : World :=
  mkWorld (products w) rows (next_image_id w) (log w).

(** The result of an awaited call: a value, or a thrown error. *)
Inductive Result (A : Type) :=
| Ok (a : A)
| Throw (e : JsError).
Arguments Ok {A} a.
Arguments Throw {A} e.

Definition Eff (A : Type) : Type := World -> Result A * World.

Definition ret {A} (a : A) : Eff A := fun w => (Ok a, w).

Definition throw {A} (e : JsError) : Eff A := fun w => (Throw e, w).

Definition bind {A B} (m : Eff A) (k : A -> Eff B) : Eff B :=
  fun w =>
    match m w with
    | (Ok a, w') => k a w'
    | (Throw e, w') => (Throw e, w')
    end.

(** [try { m } catch (error) { handler(error) }]. *)
Definition try_catch {A} (m : Eff A) (handler : JsError -> Eff A) : Eff A :=
  fun w =>
    match m w with
    | (Ok a, w') => (Ok a, w')
    | (Throw e, w') => handler e w'
    end.

Declare Scope eff_scope.
Delimit Scope eff_scope with eff.
Notation "x <- m ;; k" := (bind m (fun x => k))
  (at level 61, m at next level, right associativity) : eff_scope.
Notation "m ;;; k" := (bind m (fun _ => k))
  (at level 61, right associativity) : eff_scope.

Section Collaborators.

(** The storage endpoint: its answer to a request, given every call made
    before it. *)
Variable server : list Event -> Request -> Reply.

Definition axios (r : Request) : Eff Z :=
  fun w =>
    match server (log w) r with
    | Resolved status => (Ok status, record (Http r) w)
    | Rejected msg st txt => (Throw (mkError msg st txt), record (Http r) w)
    end.

(** The database: given every call made before it, a query is answered
    ([None]) or refused with an error, which the awaiting code sees as a
    thrown error. *)
Variable refusal : list Event -> Query -> option JsError.

(** An awaited query: the database answers it with [answer] and leaves the
    tables as [after] says, or refuses it and leaves them as they are.  The
    call is made in both cases. *)
Definition query {A : Type} (q : Query) (answer : World -> A)
    (after : World -> World) : Eff A :=
  fun w =>
    match refusal (log w) q with
    | None => (Ok (answer w), record (Db q) (after w))
    | Some e => (Throw e, record (Db q) w)
    end.

(** [ProductImage.count()]. *)
Definition ProductImage_count : Eff Z :=
  query CountImages
        (fun w => Z.of_nat (List.length (product_images w)))
        (fun w => w).

(** [Product.count({ include: [{ model: ProductImage, as: 'images',
    required: true }] })]: the rows of the inner join of products and
    images are counted; the value is only printed. *)
Definition Product_count_with_images : Eff Z :=
  query CountProductsWithImages
        (fun w =>
           Z.of_nat (List.length
             (flat_map
                (fun p =>
                   filter (fun i => (ProductImage.product_id i =? product_pk p)%Z)
                          (product_images w))
                (products w))))
        (fun w => w).

(** [Product.findByPk(id)], as the hook that awaits it sees its answer; the
    hooks have no handler of their own, and what is modelled of them is what
    they compute from the answers of their queries. *)
Definition Product_findByPk (pk : Z) : Eff (option Product) :=
  fun w => (Ok (find (fun p => (product_pk p =? pk)%Z) (products w)),
            record (Db (FindProductByPk pk)) w).

(** [ProductImage.findAll({ limit, include: [product] })]. *)
Definition ProductImage_findAll (limit : nat)
  : Eff (list (ProductImage.t * option Product)) :=
  query (FindAllImages limit)
        (fun w =>
           map (fun i =>
                  (i, find (fun p => (product_pk p =? ProductImage.product_id i)%Z)
                           (products w)))
               (firstn limit (product_images w)))
        (fun w => w).

(** [ProductImage.destroy({ where: {}, force: true })]: every row goes;
    the number of deleted rows is returned. *)
Definition ProductImage_destroy_all : Eff Z :=
  query DestroyAllImages
        (fun w => Z.of_nat (List.length (product_images w)))
        (setImages []).

(** [ProductImage.max('position', { where: { product_id } })]: [null]
    when the product has no row. *)
Definition max_of (l : list Z) : option Z :=
  fold_left (fun acc p =>
               match acc with
               | Some m => Some (Z.max m p)
               | None => Some p
               end) l None.

Definition positions_of (pid : Z) (rows : list ProductImage.t) : list Z :=
  flat_map (fun i =>
              if (ProductImage.product_id i =? pid)%Z
              then match ProductImage.position i with
                   | Some p => [p]
                   | None => []
                   end
              else []) rows.

Definition ProductImage_max_position (pid : Z) : Eff (option Z) :=
  fun w => (Ok (max_of (positions_of pid (product_images w))),
            record (Db (MaxPosition pid)) w).

(** The INSERT that ends [create], for a row the database accepts: the row
    gets the next id. *)
Definition ProductImage_insert (image : ProductImage.t)
  : Eff ProductImage.t :=
  fun w =>
    let row := ProductImage.withId image (Some (next_image_id w)) in
    (Ok row,
     record (Db InsertImage)
            (mkWorld (products w) (product_images w ++ [row])
                     (next_image_id w + 1)%Z (log w))).

End Collaborators.

End Effects.

(** ** The hooks of the ProductImage model and [ProductImage.create] *)

Module Hooks.
Import Effects.
Local Open Scope eff_scope.

(** [n || d] for a number-or-null [n]: [null] and [0] are falsy. *)
Definition num_or_else (n : option Z) (d : Z) : Z :=
  match n with
  | Some v => if (v =? 0)%Z then d else v
  | None => d
  end.

(** [beforeValidate]: alt text from the product title when [alt] is
    missing. *)
Definition beforeValidate (image : ProductImage.t) : Eff ProductImage.t :=
  if negb (JS.truthy (ProductImage.alt image)) &&
     negb (ProductImage.product_id image =? 0)%Z
  then
    product <- Product_findByPk (ProductImage.product_id image) ;;
    match product with
    | Some p =>
        ret (ProductImage.withAlt image (Some (title p ++ " - Product Image")))
    | None => ret image
    end
  else ret image.

(** [beforeCreate]: "Set position if not provided". *)
Definition beforeCreate (image : ProductImage.t) : Eff ProductImage.t :=
  match ProductImage.position image with
  | None =>
      maxPosition <- ProductImage_max_position (ProductImage.product_id image) ;;
      ret (ProductImage.withPosition image
             (Some (num_or_else maxPosition (-1) + 1)%Z))
  | Some _ => ret image
  end.

(** [ProductImage.build(values)]: an attribute left [undefined] takes the
    [defaultValue] of its declaration; [position] declares
    [defaultValue: 0]. *)
Definition build (values : ProductImage.t) : ProductImage.t :=
  match ProductImage.position values with
  | None => ProductImage.withPosition values (Some 0%Z)
  | Some _ => values
  end.

(** [ProductImage.create(values)]: build, [beforeValidate], the
    validators (which change nothing; instances that pass them are
    modelled, so a missing [position] in [values] is [undefined]: an
    explicit [null] is refused by [allowNull: false]), [beforeCreate],
    INSERT. *)
Definition create (values : ProductImage.t) : Eff ProductImage.t :=
  image <- beforeValidate (build values) ;;
  image <- beforeCreate image ;;
  ProductImage_insert image.

(** Creating the images of [l] one after the other; the created rows are
    returned in creation order. *)
Fixpoint create_all (l : list ProductImage.t) : Eff (list ProductImage.t) :=
  match l with
  | [] => ret []
  | values :: rest =>
      row <- create values ;;
      rows <- create_all rest ;;
      ret (row :: rows)
  end.

End Hooks.

(** ** BunnyCDNService *)

Module BunnyCDNService.
Import Effects.
Local Open Scope eff_scope.

(** The three environment variables the constructor reads. *)
Record Env := mkEnv {
  STORAGE_URL : option string;
  STORAGE_SERVER_BASE_URL : option string;
  STORAGE_SERVER_ACCESS_KEY : option string
}.

Record t := mk {
  storageUrl : option string;
  serverBaseUrl : option string;
  accessKey : option string
}.

(** [constructor()]. *)
Definition new (env : Env) : t :=
  mk (STORAGE_URL env) (STORAGE_SERVER_BASE_URL env)
     (STORAGE_SERVER_ACCESS_KEY env).

(** [isConfigured()]. *)
Definition isConfigured (this : t) : bool :=
  JS.truthy (storageUrl this) &&
  JS.truthy (serverBaseUrl this) &&
  JS.truthy (accessKey this).

(** [getPublicUrl(key)]. *)
Definition getPublicUrl (this : t) (key : string) : string :=
  if JS.truthy (serverBaseUrl this)
  then JS.to_str (serverBaseUrl this) ++ "/" ++ key
  else JS.to_str (storageUrl this) ++ "/" ++ key.

(** [/\.[^/.]+$/]: does the pattern match exactly the whole of [s]?  [s]
    must be a dot followed by one or more characters other than [/] and
    [.], up to the end of the string. *)
Definition not_slash_or_dot (c : ascii) : bool :=
  negb (Ascii.eqb c "/") && negb (Ascii.eqb c ".").

Definition is_extension (s : string) : bool :=
  match s with
  | String d (String c rest) =>
      Ascii.eqb d "." &&
      forallb not_slash_or_dot (c :: list_ascii_of_string rest)
  | _ => false
  end.

(** [filename.replace(/\.[^/.]+$/, '')]: the leftmost position where the
    pattern matches is removed up to the end of the string. *)
Fixpoint remove_extension (s : string) : string :=
  if is_extension s then EmptyString
  else match s with
       | EmptyString => EmptyString
       | String c s' => String c (remove_extension s')
       end.

(** The class [[a-zA-Z0-9-_]]. *)
Definition is_key_char (c : ascii) : bool :=
  (Ascii.leb "a" c && Ascii.leb c "z") ||
  (Ascii.leb "A" c && Ascii.leb c "Z") ||
  (Ascii.leb "0" c && Ascii.leb c "9") ||
  Ascii.eqb c "-" || Ascii.eqb c "_".

(** [baseFilename.replace(/[^a-zA-Z0-9-_]/g, '_')]. *)
Fixpoint sanitize (s : string) : string :=
  match s with
  | EmptyString => EmptyString
  | String c s' => String (if is_key_char c then c else "_"%char) (sanitize s')
  end.

(** [generateProductImageKey(productId, size, extension, filename = null)].
    [timestamp] is what [Date.now()] returned and [random36] is the string
    [Math.random().toString(36)]. *)
Definition generateProductImageKey (productId : N) (size extension : string)
    (filename : option string) (timestamp : N) (random36 : string) : string :=
  let randomId := JS.substring 2 8 random36 in
  if JS.truthy filename then
    let baseFilename := remove_extension (JS.to_str filename) in
    let sanitizedFilename := sanitize baseFilename in
    "products/" ++ JS.of_N productId ++ "/images/" ++ size ++ "/" ++
    sanitizedFilename ++ "_" ++ JS.of_N timestamp ++ "_" ++ randomId ++
    "." ++ extension
  else
    "products/" ++ JS.of_N productId ++ "/images/" ++ size ++ "/image_" ++
    JS.of_N timestamp ++ "_" ++ randomId ++ "." ++ extension.

(** The strings [Math.random().toString(36)] can be: "0", or "0." followed
    by one or more digits of base 36. *)
Definition is_base36_digit (c : ascii) : bool :=
  (Ascii.leb "0" c && Ascii.leb c "9") || (Ascii.leb "a" c && Ascii.leb c "z").

Definition is_random36 (s : string) : bool :=
  match s with
  | String z EmptyString => Ascii.eqb z "0"
  | String z (String d (String c rest)) =>
      Ascii.eqb z "0" && Ascii.eqb d "." &&
      forallb is_base36_digit (c :: list_ascii_of_string rest)
  | _ => false
  end.

Record UploadResult := mkUpload {
  up_key : string;
  up_url : string;
  up_size : Z;
  up_contentType : string
}.

Record ConnectionTest := mkTest {
  success : bool;
  test_error : option string;
  test_status : option Z;
  test_statusText : option string;
  test_message : option string
}.

Record DeleteResults := mkResults {
  successful : list string;
  failed : list (string * string)
}.

Section WithServer.
Variable server : list Event -> Request -> Reply.

Definition not_configured : string :=
  "Bunny CDN is not properly configured. Please check your environment variables.".

(** [uploadFile(fileBuffer, key, contentType, metadata)].  The code reads
    neither [metadata] nor the [FormData] object it builds; both are left
    out. *)
Definition uploadFile (this : t) (fileBuffer : list Byte.byte)
    (key contentType : string) : Eff UploadResult :=
  if negb (isConfigured this) then throw (Error not_configured)
  else
    try_catch
      (let uploadUrl := JS.to_str (storageUrl this) ++ "/" ++ key in
       response <- axios server
         (mkRequest PUT uploadUrl
            [("AccessKey", JS.to_str (accessKey this));
             ("Content-Type", contentType);
             ("Cache-Control", "public, max-age=31536000")]
            fileBuffer) ;;
       let url := getPublicUrl this key in
       ret (mkUpload key url (Z.of_nat (List.length fileBuffer)) contentType))
      (fun error =>
         throw (Error ("Bunny CDN upload failed: " ++ message error))).

(** [deleteFile(key)]. *)
Definition deleteFile (this : t) (key : string) : Eff bool :=
  if negb (isConfigured this) then throw (Error not_configured)
  else
    try_catch
      (let deleteUrl := JS.to_str (storageUrl this) ++ "/" ++ key in
       response <- axios server
         (mkRequest DELETE deleteUrl
            [("AccessKey", JS.to_str (accessKey this))] []) ;;
       ret true)
      (fun error =>
         throw (Error ("Bunny CDN delete failed: " ++ message error))).

(** The loop of [deleteFiles]: [results] is the object the loop pushes
    into. *)
Fixpoint deleteFiles_loop (this : t) (keys : list string)
    (results : DeleteResults) : Eff DeleteResults :=
  match keys with
  | [] => ret results
  | key :: rest =>
      results' <-
        try_catch
          (deleteFile this key ;;;
           ret (mkResults (successful results ++ [key]) (failed results)))
          (fun error =>
             ret (mkResults (successful results)
                            (failed results ++ [(key, message error)]))) ;;
      deleteFiles_loop this rest results'
  end.

(** [deleteFiles(keys)]. *)
Definition deleteFiles (this : t) (keys : list string) : Eff DeleteResults :=
  deleteFiles_loop this keys (mkResults [] []).

(** [testConnection()]. *)
Definition testConnection (this : t) : Eff ConnectionTest :=
  if negb (isConfigured this) then
    ret (mkTest false (Some "Bunny CDN is not properly configured")
                None None None)
  else
    try_catch
      (let testUrl := JS.to_str (storageUrl this) ++ "/" in
       status <- axios server
         (mkRequest GET testUrl
            [("AccessKey", JS.to_str (accessKey this))] []) ;;
       ret (mkTest true None (Some status) None
                   (Some "Connection to Bunny CDN successful")))
      (fun error =>
         ret (mkTest false (Some (message error)) (response_status error)
                     (response_statusText error) None)).

End WithServer.

End BunnyCDNService.

(** ** The migration script *)

Module Migration.
Import Effects.
Local Open Scope eff_scope.

(** The 1x1 PNG of the upload test, decoded from its base64 text. *)
Definition testImageBuffer : list Byte.byte :=
  (Byte.x89 :: Byte.x50 :: Byte.x4e :: Byte.x47 :: Byte.x0d :: Byte.x0a ::
   Byte.x1a :: Byte.x0a :: Byte.x00 :: Byte.x00 :: Byte.x00 :: Byte.x0d ::
   Byte.x49 :: Byte.x48 :: Byte.x44 :: Byte.x52 :: Byte.x00 :: Byte.x00 ::
   Byte.x00 :: Byte.x01 :: Byte.x00 :: Byte.x00 :: Byte.x00 :: Byte.x01 ::
   Byte.x08 :: Byte.x06 :: Byte.x00 :: Byte.x00 :: Byte.x00 :: Byte.x1f ::
   Byte.x15 :: Byte.xc4 :: Byte.x89 :: Byte.x00 :: Byte.x00 :: Byte.x00 ::
   Byte.x0d :: Byte.x49 :: Byte.x44 :: Byte.x41 :: Byte.x54 :: Byte.x78 ::
   Byte.xda :: Byte.x63 :: Byte.x64 :: Byte.x60 :: Byte.xf8 :: Byte.x5f ::
   Byte.x0f :: Byte.x00 :: Byte.x02 :: Byte.x87 :: Byte.x01 :: Byte.x80 ::
   Byte.xeb :: Byte.x47 :: Byte.xba :: Byte.x92 :: Byte.x00 :: Byte.x00 ::
   Byte.x00 :: Byte.x00 :: Byte.x49 :: Byte.x45 :: Byte.x4e :: Byte.x44 ::
   Byte.xae :: Byte.x42 :: Byte.x60 :: Byte.x82 :: nil).

Definition testKey : string := "migration-test/connection-test.png".

(** How the script ends: the function returns (the process then exits with
    status 0), or the [catch] handler calls [process.exit(1)]. *)
Inductive Outcome :=
| Returned
| ProcessExit (code : Z).

Section WithServer.
Variable server : list Event -> Request -> Reply.
Variable refusal : list Event -> Query -> option JsError.
Variable bunnyCDNService : BunnyCDNService.t.

(** The [try] block of [migrateToBunnyCDN]; the console output is left
    out. *)
Definition migrateToBunnyCDN_try : Eff unit :=
  (* Step 1 *)
  let isConfigured := BunnyCDNService.isConfigured bunnyCDNService in
  if negb isConfigured then ret tt
  else
    (* Step 2 *)
    connectionTest <- BunnyCDNService.testConnection server bunnyCDNService ;;
    if negb (BunnyCDNService.success connectionTest) then ret tt
    else
      (* Step 3 *)
      totalImages <- ProductImage_count refusal ;;
      productsWithImages <- Product_count_with_images refusal ;;
      if (totalImages =? 0)%Z then ret tt
      else
        (* Step 4 *)
        sampleImages <- ProductImage_findAll refusal 5 ;;
        (* Step 6 *)
        deletedCount <- ProductImage_destroy_all refusal ;;
        (* Step 7 *)
        remainingImages <- ProductImage_count refusal ;;
        productsWithImagesAfter <- Product_count_with_images refusal ;;
        (* Step 8 *)
        uploadResult <- BunnyCDNService.uploadFile server bunnyCDNService
                          testImageBuffer testKey "image/png" ;;
        BunnyCDNService.deleteFile server bunnyCDNService testKey ;;;
        ret tt.

(** [migrateToBunnyCDN()]: an error thrown in the [try] block, by the
    storage client or by a refused query, ends in the [catch] handler. *)
Definition migrateToBunnyCDN (w : World) : Outcome * World :=
  match migrateToBunnyCDN_try w with
  | (Ok _, w') => (Returned, w')
  | (Throw error, w') => (ProcessExit 1, w')
  end.

End WithServer.

(** Kinds of calls a run can make. *)
Definition is_purge (e : Event) : bool :=
  match e with
  | Db DestroyAllImages => true
  | _ => false
  end.

Definition is_inventory (e : Event) : bool :=
  match e with
  | Db CountImages | Db CountProductsWithImages => true
  | _ => false
  end.

Definition is_storage_write (e : Event) : bool :=
  match e with
  | Http r =>
      match method r with
      | PUT | DELETE => true
      | GET => false
      end
  | Db _ => false
  end.

End Migration.

(** ** Vocabulary of the statements *)

Module Statements.
Import Effects.

(** A setting is present: defined and not the empty string. *)
Definition present (v : option string) : Prop :=
  exists s, v = Some s /\ s <> "".

(** A setting is missing: undefined, or the empty string. *)
Definition missing (v : option string) : Prop :=
  v = None \/ v = Some "".

(** The file-name part of a generated key, before the timestamp. *)
Definition key_base (filename : option string) : string :=
  if JS.truthy filename
  then BunnyCDNService.sanitize
         (BunnyCDNService.remove_extension (JS.to_str filename))
  else "image".

(** The random part of a generated key. *)
Definition randomId (random36 : string) : string := JS.substring 2 8 random36.

(** The DELETE request [deleteFile] sends for [key]. *)
Definition delete_request (this : BunnyCDNService.t) (key : string) : Request :=
  mkRequest DELETE (JS.to_str (BunnyCDNService.storageUrl this) ++ "/" ++ key)
    [("AccessKey", JS.to_str (BunnyCDNService.accessKey this))] [].

(** The GET request [testConnection] sends. *)
Definition probe_request (this : BunnyCDNService.t) : Request :=
  mkRequest GET (JS.to_str (BunnyCDNService.storageUrl this) ++ "/")
    [("AccessKey", JS.to_str (BunnyCDNService.accessKey this))] [].

(** Calling [deleteFile] on every key in turn and keeping each outcome:
    what "attempting every key once, in sequence" produces. *)
Fixpoint attempt_each (server : list Event -> Request -> Reply)
    (this : BunnyCDNService.t) (keys : list string) (w : World)
    : list (string * Result bool) * World :=
  match keys with
  | [] => ([], w)
  | key :: rest =>
      let (outcome, w1) := BunnyCDNService.deleteFile server this key w in
      let (outcomes, w2) := attempt_each server this rest w1 in
      ((key, outcome) :: outcomes, w2)
  end.

(** The keys whose attempt succeeded, in order. *)
Definition succeeded (outcomes : list (string * Result bool)) : list string :=
  flat_map (fun ko => match snd ko with
                      | Ok _ => [fst ko]
                      | Throw _ => []
                      end) outcomes.

(** The keys whose attempt threw, each with the message of its error. *)
Definition failures (outcomes : list (string * Result bool))
  : list (string * string) :=
  flat_map (fun ko => match snd ko with
                      | Ok _ => []
                      | Throw e => [(fst ko, message e)]
                      end) outcomes.

(** Events that are calls to the database. *)
Definition is_db (e : Event) : bool :=
  match e with
  | Db _ => true
  | Http _ => false
  end.

(** The database part of the world. *)
Definition database (w : World)
  : list Product * list ProductImage.t * Z :=
  (products w, product_images w, next_image_id w).

End Statements.

(** ** Sample inputs *)

Module Samples.
Import Effects.

Definition image (u k : option string) : ProductImage.t :=
  ProductImage.mk None 7 k u None None None None ProductImage.original
    None None None.

Definition cdn : option string := Some "https://cdn.example.com".

(** A placeholder URL stored next to an [s3://] key. *)
Definition placeholder_with_s3_key : ProductImage.t :=
  image (Some "https://picsum.photos/200") (Some "s3://bucket/products/7/a.png").

(** An [s3://] key whose path contains [amazonaws.com/]. *)
Definition s3_key_with_amazon_path : ProductImage.t :=
  image (Some "https://shop.example.com/a.png")
        (Some "s3://bucket/amazonaws.com/a.png").

(** A key with another scheme. *)
Definition gs_key : ProductImage.t :=
  image (Some "https://shop.example.com/a.png") (Some "gs://bucket/products/7/a.png").

(** A plain [s3://] key next to a URL of the shop itself. *)
Definition plain_s3_key : ProductImage.t :=
  image (Some "https://shop.example.com/a.png") (Some "s3://bucket/products/7/a.png").

Definition service : BunnyCDNService.t :=
  BunnyCDNService.mk (Some "https://storage.bunnycdn.com/zone")
                     (Some "https://cdn.example.com") (Some "secret").

Definition unconfigured : BunnyCDNService.t :=
  BunnyCDNService.mk (Some "https://storage.bunnycdn.com/zone") None (Some "secret").

Definition shirt : Product := mkProduct 7 "Shirt" "shirt".

Definition empty_world : World := mkWorld [shirt] [] 1 [].

(** One stored image of product 7. *)
Definition stored : ProductImage.t :=
  ProductImage.mk (Some 1%Z) 7 (Some "products/7/a.png")
    (Some "https://cdn.example.com/products/7/a.png") (Some "Shirt")
    (Some 0%Z) None None ProductImage.original None None None.

Definition populated_world : World := mkWorld [shirt] [stored] 2 [].

(** A storage endpoint that accepts everything except the DELETE of key
    [b], which it answers with 404. *)
Definition server_failing_b (_ : list Event) (r : Request) : Reply :=
  if (target r =? "https://storage.bunnycdn.com/zone/b")%string
  then Rejected "Request failed with status code 404" (Some 404%Z)
                (Some "Not Found")
  else Resolved 200.

(** A storage endpoint that answers every request with 401. *)
Definition server_401 (_ : list Event) (_ : Request) : Reply :=
  Rejected "Request failed with status code 401" (Some 401%Z)
           (Some "Unauthorized").

Definition server_ok (_ : list Event) (_ : Request) : Reply := Resolved 200.

(** A database that answers every query. *)
Definition database_up (_ : list Event) (_ : Query) : option JsError := None.

(** A database that refuses every query. *)
Definition database_down (_ : list Event) (_ : Query) : option JsError :=
  Some (Error "connect ECONNREFUSED 127.0.0.1:3306").

End Samples.

(** ** More of the ProductImage model: dimensions and file size *)

Module ProductImageMethods.

(** The values the number tests of the model can return: [null]
    (or [undefined]), a number, or a boolean. *)
Inductive JsValue :=
| JsNull
| JsNumber (z : Z)
| JsBoolean (b : bool).

Definition is_truthy (v : JsValue) : bool :=
  match v with
  | JsNull => false
  | JsNumber z => negb (z =? 0)%Z
  | JsBoolean b => b
  end.

(** A number-or-null field as a value. *)
Definition of_field (n : option Z) : JsValue :=
  match n with
  | Some z => JsNumber z
  | None => JsNull
  end.

(** [a && b]. *)
Definition js_and (a b : JsValue) : JsValue := if is_truthy a then b else a.

(** [n > 0] for a number-or-null field: [null > 0] is [false]. *)
Definition gt0 (n : option Z) : JsValue :=
  JsBoolean (match n with
             | Some z => (0 <? z)%Z
             | None => false
             end).

(** [`${n}`] for an integer. *)
Definition of_Z (z : Z) : string := NilZero.string_of_int (Z.to_int z).

(** [getDimensions()]. *)
Definition getDimensions (r : ProductImage.t) : option string :=
  if is_truthy (js_and (of_field (ProductImage.width r))
                       (of_field (ProductImage.height r)))
  then match ProductImage.width r, ProductImage.height r with
       | Some w, Some h => Some (of_Z w ++ "x" ++ of_Z h)
       | _, _ => None
       end
  else None.

(** [hasValidDimensions()]. *)
Definition hasValidDimensions (r : ProductImage.t) : JsValue :=
  js_and (js_and (js_and (of_field (ProductImage.width r))
                         (of_field (ProductImage.height r)))
                 (gt0 (ProductImage.width r)))
         (gt0 (ProductImage.height r)).

(** [hasValidFileSize()]. *)
Definition hasValidFileSize (r : ProductImage.t) : JsValue :=
  js_and (of_field (ProductImage.file_size r)) (gt0 (ProductImage.file_size r)).

End ProductImageMethods.

(** ** The connectivity-test route: [GET /api/test/bunny-cdn] *)

Module BunnyTestRoute.
Import Effects.
Local Open Scope eff_scope.

Record Details := mkDetails {
  has_storageUrl : bool;
  has_serverBaseUrl : bool;
  has_accessKey : bool
}.

Record Environment := mkEnvironment {
  env_storageUrl : option string;
  env_serverBaseUrl : option string;
  env_accessKeySet : bool
}.

(** The three JSON bodies the handler can send. *)
Inductive Body :=
| NotConfigured (error : string) (details : Details)
| Tested (success configured : bool)
         (connection : BunnyCDNService.ConnectionTest)
         (environment : Environment)
| Failed (error : string).

(** What the handler sends: [res.status(code).json(body)]; [res.json(body)]
    alone sends status 200. *)
Record Response := mkResponse {
  status : Z;
  body : Body
}.

Section WithServer.
Variable server : list Event -> Request -> Reply.

(** The handler of [router.get('/bunny-cdn', ...)].  [env] is
    [process.env] and [bunnyCDNService] the service object. *)
Definition get_bunny_cdn (env : BunnyCDNService.Env)
    (bunnyCDNService : BunnyCDNService.t) : Eff Response :=
  try_catch
    (let isConfigured := BunnyCDNService.isConfigured bunnyCDNService in
     if negb isConfigured then
       ret (mkResponse 500
              (NotConfigured "Bunny CDN is not properly configured"
                 (mkDetails
                    (JS.truthy (BunnyCDNService.STORAGE_URL env))
                    (JS.truthy (BunnyCDNService.STORAGE_SERVER_BASE_URL env))
                    (JS.truthy (BunnyCDNService.STORAGE_SERVER_ACCESS_KEY env)))))
     else
       connectionTest <- BunnyCDNService.testConnection server bunnyCDNService ;;
       ret (mkResponse 200
              (Tested (BunnyCDNService.success connectionTest) isConfigured
                 connectionTest
                 (mkEnvironment
                    (BunnyCDNService.STORAGE_URL env)
                    (BunnyCDNService.STORAGE_SERVER_BASE_URL env)
                    (JS.truthy (BunnyCDNService.STORAGE_SERVER_ACCESS_KEY env))))))
    (fun error => ret (mkResponse 500 (Failed (message error)))).

End WithServer.

End BunnyTestRoute.

(** ** The migration that creates [cart_items] *)

Module CartItemsMigration.
Import Effects.

(** One column of the table definition handed to [createTable]. *)
Record Column := mkColumn {
  col_name : string;
  col_type : string;
  primaryKey : bool;
  autoIncrement : bool;
  allowNull : bool;
  references : option (string * string);
  onUpdate : option string;
  onDelete : option string;
  defaultValue : option string;
  validate : list (string * string)
}.

Definition cart_items_columns : list Column :=
  [ mkColumn "id" "BIGINT" true true true None None None None [];
    mkColumn "cart_id" "BIGINT" false false false (Some ("carts", "id"))
             (Some "CASCADE") (Some "CASCADE") None [];
    mkColumn "product_id" "BIGINT" false false false (Some ("products", "id"))
             (Some "CASCADE") (Some "CASCADE") None [];
    mkColumn "sku" "STRING(64)" false false false None None None None
             [("notEmpty", "true"); ("len", "[1, 64]")];
    mkColumn "qty" "INTEGER" false false false None None None None
             [("min", "1")];
    mkColumn "unit_price" "DECIMAL(12, 2)" false false false None None None None
             [("min", "0")];
    mkColumn "line_subtotal" "DECIMAL(12, 2)" false false false None None None
             None [("min", "0")];
    mkColumn "line_discount" "DECIMAL(12, 2)" false false false None None None
             (Some "0") [("min", "0")];
    mkColumn "line_tax" "DECIMAL(12, 2)" false false false None None None
             (Some "0") [("min", "0")];
    mkColumn "line_total" "DECIMAL(12, 2)" false false false None None None
             None [("min", "0")];
    mkColumn "created_at" "DATE" false false false None None None
             (Some "CURRENT_TIMESTAMP") [];
    mkColumn "updated_at" "DATE" false false false None None None
             (Some "CURRENT_TIMESTAMP ON UPDATE CURRENT_TIMESTAMP") [] ].

(** The calls to [queryInterface]. *)
Inductive SchemaCall :=
| CreateTable (table : string) (columns : list Column)
| AddIndex (table : string) (fields : list string) (name : string)
           (unique : bool)
| DropTable (table : string).

(** A migration step: it runs against the calls made so far, adds its own,
    and returns or throws. *)
Definition Step (A : Type) : Type :=
  list SchemaCall -> Result A * list SchemaCall.

Definition done {A} (a : A) : Step A := fun calls => (Ok a, calls).

Definition rethrow {A} (e : JsError) : Step A := fun calls => (Throw e, calls).

Definition and_then {A B} (m : Step A) (k : A -> Step B) : Step B :=
  fun calls =>
    match m calls with
    | (Ok a, calls') => k a calls'
    | (Throw e, calls') => (Throw e, calls')
    end.

Definition catching {A} (m : Step A) (handler : JsError -> Step A) : Step A :=
  fun calls =>
    match m calls with
    | (Ok a, calls') => (Ok a, calls')
    | (Throw e, calls') => handler e calls'
    end.

Section WithQueryInterface.

(** The database behind [queryInterface]: given the calls made before, a
    call resolves ([None]) or rejects with an error. *)
Variable queryInterface : list SchemaCall -> SchemaCall -> option JsError.

Definition await (c : SchemaCall) : Step unit :=
  fun calls =>
    match queryInterface calls c with
    | None => (Ok tt, (calls ++ [c])%list)
    | Some e => (Throw e, (calls ++ [c])%list)
    end.

(** [try { await queryInterface.addIndex(...) } catch (error) { if
    (!error.message.includes('Duplicate key name')) { throw error; } }]. *)
Definition addIndex_unless_present (c : SchemaCall) : Step unit :=
  catching (await c)
    (fun error =>
       if negb (JS.includes (message error) "Duplicate key name")
       then rethrow error
       else done tt).

Definition idx_cart_id : SchemaCall :=
  AddIndex "cart_items" ["cart_id"] "idx_cart_items_cart_id" false.
Definition idx_product_id : SchemaCall :=
  AddIndex "cart_items" ["product_id"] "idx_cart_items_product_id" false.
Definition idx_sku : SchemaCall :=
  AddIndex "cart_items" ["sku"] "idx_cart_items_sku" false.
Definition uniq_cart_sku : SchemaCall :=
  AddIndex "cart_items" ["cart_id"; "sku"] "uniq_cart_sku" true.

(** The four indexes, in the order [up] adds them. *)
Definition cart_items_indexes : list SchemaCall :=
  [idx_cart_id; idx_product_id; idx_sku; uniq_cart_sku].

(** [up(queryInterface, Sequelize)]. *)
Definition up : Step unit :=
  and_then (await (CreateTable "cart_items" cart_items_columns)) (fun _ =>
  and_then (addIndex_unless_present idx_cart_id) (fun _ =>
  and_then (addIndex_unless_present idx_product_id) (fun _ =>
  and_then (addIndex_unless_present idx_sku) (fun _ =>
  addIndex_unless_present uniq_cart_sku)))).

(** [down(queryInterface, Sequelize)]. *)
Definition down : Step unit := await (DropTable "cart_items").

End WithQueryInterface.

End CartItemsMigration.

(** ** More vocabulary and sample inputs *)

Module Requests.
Import Effects.

(** The PUT request [uploadFile] sends. *)
Definition put_request (this : BunnyCDNService.t) (fileBuffer : list Byte.byte)
    (key contentType : string) : Request :=
  mkRequest PUT (JS.to_str (BunnyCDNService.storageUrl this) ++ "/" ++ key)
    [("AccessKey", JS.to_str (BunnyCDNService.accessKey this));
     ("Content-Type", contentType);
     ("Cache-Control", "public, max-age=31536000")]
    fileBuffer.

(** Events that are DELETE requests. *)
Definition is_delete (e : Event) : bool :=
  match e with
  | Http r => match method r with
              | DELETE => true
              | _ => false
              end
  | Db _ => false
  end.

(** The record stored for an uploaded file: the key it was uploaded under
    and the URL the upload returned. *)
Definition uploaded_image (product : Z) (up : BunnyCDNService.UploadResult)
  : ProductImage.t :=
  ProductImage.mk None product (Some (BunnyCDNService.up_key up))
    (Some (BunnyCDNService.up_url up)) None None None None
    ProductImage.original None None None.

(** The calls of a complete run of the migration script on a table that is
    not empty. *)
Definition full_run (service : BunnyCDNService.t) : list Event :=
  [Http (Statements.probe_request service);
   Db CountImages; Db CountProductsWithImages;
   Db (FindAllImages 5); Db DestroyAllImages;
   Db CountImages; Db CountProductsWithImages;
   Http (put_request service Migration.testImageBuffer Migration.testKey
           "image/png");
   Http (Statements.delete_request service Migration.testKey)].

(** The world when the upload test of the migration script starts, on a
    table that was not empty. *)
Definition purged (service : BunnyCDNService.t) (w : World) : World :=
  mkWorld (products w) [] (next_image_id w)
    (log w ++ firstn 7 (full_run service)).


(** The database answers every query. *)
Definition answers_all (refusal : list Event -> Query -> option JsError) : Prop :=
  forall calls q, refusal calls q = None.

End Requests.

Module MoreSamples.
Import Effects CartItemsMigration.

(** A storage endpoint that answers the probe but refuses every PUT. *)
Definition server_refusing_put (_ : list Event) (r : Request) : Reply :=
  match method r with
  | PUT => Rejected "Request failed with status code 403" (Some 403%Z)
                    (Some "Forbidden")
  | _ => Resolved 200
  end.

(** An S3 URL stored as key. *)
Definition amazon_key : ProductImage.t :=
  Samples.image (Some "https://shop.example.com/a.png")
    (Some "https://bucket.s3.amazonaws.com/products/7/a.png").

(** A record without key. *)
Definition keyless : ProductImage.t :=
  Samples.image (Some "https://shop.example.com/a.png") None.

(** A database where the first two indexes exist already. *)
Definition two_indexes_present (_ : list SchemaCall) (c : SchemaCall)
  : option JsError :=
  match c with
  | AddIndex _ _ name _ =>
      if (name =? "idx_cart_items_cart_id")%string ||
         (name =? "idx_cart_items_product_id")%string
      then Some (Error ("Duplicate key name '" ++ name ++ "'"))
      else None
  | _ => None
  end.

(** A database that refuses the third index for another reason. *)
Definition sku_index_refused (_ : list SchemaCall) (c : SchemaCall)
  : option JsError :=
  match c with
  | AddIndex _ _ name _ =>
      if (name =? "idx_cart_items_sku")%string
      then Some (Error "Key column 'sku' doesn't exist in table")
      else None
  | _ => None
  end.

End MoreSamples.

(** ** Vocabulary for the [cart_items] migration *)

Module CartItemsSteps.
Import Effects CartItemsMigration.

(** An answer of the database that [up] lets pass when it adds an index:
    success, or an error whose message holds [Duplicate key name]. *)
Definition tolerated (answer : option JsError) : Prop :=
  match answer with
  | None => True
  | Some e => JS.includes (message e) "Duplicate key name" = true
  end.

(** Adding the indexes of a list one after the other, each in its own
    [try]/[catch]. *)
Fixpoint add_each (queryInterface : list SchemaCall -> SchemaCall -> option JsError)
    (indexes : list SchemaCall) : Step unit :=
  match indexes with
  | [] => done tt
  | c :: rest =>
      and_then (addIndex_unless_present queryInterface c)
               (fun _ => add_each queryInterface rest)
  end.

End CartItemsSteps.

(** * Properties *)

(** ** Strings *)

Section StringFacts.

Lemma split_skip_not_nil (sep : string) (s : string) :
  forall skip, JS.split_skip sep skip s <> [].
Proof.
  induction s as [|c s IH]; intros skip; cbn [JS.split_skip].
  - discriminate.
  - destruct skip as [|k]; [|apply IH].
    destruct (JS.startsWith (String c s) sep); [discriminate|].
    destruct (JS.split_skip sep 0 s); discriminate.
Qed.

(** Splitting at the slashes and joining with a slash gives the string
    back. *)
Lemma join_split_slash (s : string) : JS.join (JS.split s "/") "/" = s.
Proof.
  unfold JS.join, JS.split.
  induction s as [|c s IH]; [reflexivity|].
  cbn [JS.split_skip JS.startsWith String.length Nat.sub].
  pose proof (split_skip_not_nil "/" s 0) as Hne.
  destruct (Ascii.eqb_spec "/"%char c) as [<-|Hc]; cbn [andb].
  - destruct (JS.split_skip "/" 0 s) as [|h t]; [congruence|].
    change (String.concat "/" ("" :: h :: t))
      with ("" ++ "/" ++ String.concat "/" (h :: t)).
    rewrite IH. reflexivity.
  - destruct (JS.split_skip "/" 0 s) as [|h t]; [congruence|].
    rewrite <- IH. destruct t; reflexivity.
Qed.

Lemma includes_cons_false (c : ascii) (s p : string) :
  JS.includes (String c s) p = false ->
  JS.startsWith (String c s) p = false /\ JS.includes s p = false.
Proof.
  cbn [JS.includes]. intros H. apply orb_false_iff in H. exact H.
Qed.

(** The first piece of a split is the text before the first slash. *)
Lemma split_slash_app (b p : string) :
  JS.includes b "/" = false ->
  JS.split (b ++ "/" ++ p) "/" = b :: JS.split p "/".
Proof.
  unfold JS.split.
  induction b as [|c b IH]; intros Hb.
  - reflexivity.
  - apply includes_cons_false in Hb. destruct Hb as [Hc Hb].
    cbn [JS.startsWith andb] in Hc.
    change (String c b ++ "/" ++ p) with (String c (b ++ "/" ++ p)).
    cbn [JS.split_skip JS.startsWith].
    destruct (Ascii.eqb "/" c); [cbn in Hc; discriminate|].
    cbn [andb]. rewrite (IH Hb). reflexivity.
Qed.

Lemma append_length (a b : string) :
  String.length (a ++ b) = String.length a + String.length b.
Proof. induction a as [|c a IH]; cbn; congruence. Qed.

End StringFacts.

(** ** The URL resolver: [cdn_url] *)

Section UrlResolver.
Import ProductImage.

Variable base : option string.

Lemma withUrl_same (r : t) : withUrl r (url r) = r.
Proof. destruct r; reflexivity. Qed.

Lemma cdn_url_early (r : t) :
  returns_url_early r = true -> cdn_url base r = url r.
Proof.
  unfold returns_url_early, cdn_url. intros H.
  apply andb_true_iff in H. destruct H as [H1 H2]. rewrite H1.
  destruct (on_placeholder_host (JS.to_str (url r))); [reflexivity|].
  cbn [orb] in H2. now rewrite H2.
Qed.

Lemma cdn_url_late (r : t) :
  returns_url_early r = false ->
  cdn_url base r =
  if JS.truthy (s3_key r)
  then Some (bunnyCDNUrl base ++ "/" ++ imagePath (JS.to_str (s3_key r)))
  else url r.
Proof.
  unfold returns_url_early, cdn_url. intros H.
  destruct (JS.truthy (url r) && is_absolute_http (JS.to_str (url r)));
    [|reflexivity].
  cbn [andb] in H. apply orb_false_iff in H. destruct H as [-> ->].
  reflexivity.
Qed.

(** C3: a record whose [url] is an absolute HTTP(S) URL on one of the
    placeholder hosts resolves to that [url], unchanged. *)
Theorem cdn_url_placeholder_identity (r : t) (u : string) :
  url r = Some u ->
  is_absolute_http u = true ->
  on_placeholder_host u = true ->
  cdn_url base r = Some u.
Proof.
  intros Hu Habs Hhost.
  rewrite cdn_url_early, Hu; [reflexivity|].
  unfold returns_url_early. rewrite Hu. cbn [JS.to_str JS.truthy].
  rewrite Habs, Hhost.
  destruct u; [discriminate Habs|reflexivity].
Qed.

(** C4: resolving is idempotent when the resolved URL is stored back as
    the record's [url]. *)
Theorem cdn_url_idempotent (r : t) :
  cdn_url base (withUrl r (cdn_url base r)) = cdn_url base r.
Proof.
  destruct (returns_url_early r) eqn:Hearly.
  - rewrite (cdn_url_early r Hearly), withUrl_same.
    exact (cdn_url_early r Hearly).
  - rewrite (cdn_url_late r Hearly).
    destruct (JS.truthy (s3_key r)) eqn:Hkey.
    + set (v := Some (bunnyCDNUrl base ++ "/" ++ imagePath (JS.to_str (s3_key r)))).
      destruct (returns_url_early (withUrl r v)) eqn:Hearly'.
      * rewrite (cdn_url_early _ Hearly'). reflexivity.
      * rewrite (cdn_url_late _ Hearly'). cbn [withUrl s3_key].
        rewrite Hkey. reflexivity.
    + rewrite withUrl_same, (cdn_url_late r Hearly), Hkey. reflexivity.
Qed.

(** C2, as the code has it: a record with the key [s3://bucket/path]
    resolves to the CDN base, a slash and [path], provided the first [if]
    does not return the stored [url] and the key does not contain
    [amazonaws.com/]. *)
Theorem cdn_url_s3_protocol_key (r : t) (bucket path : string) :
  s3_key r = Some ("s3://" ++ bucket ++ "/" ++ path) ->
  JS.includes bucket "/" = false ->
  JS.includes ("s3://" ++ bucket ++ "/" ++ path) "amazonaws.com/" = false ->
  returns_url_early r = false ->
  cdn_url base r = Some (bunnyCDNUrl base ++ "/" ++ path).
Proof.
  intros Hkey Hbucket Hamazon Hearly.
  rewrite (cdn_url_late r Hearly), Hkey.
  cbn [JS.truthy JS.to_str].
  change (("s3://" ++ bucket ++ "/" ++ path =? "")%string) with false.
  cbn [negb]. unfold imagePath. rewrite Hamazon.
  change (JS.includes ("s3://" ++ bucket ++ "/" ++ path) "s3://") with true.
  cbv iota.
  change (JS.replace ("s3://" ++ bucket ++ "/" ++ path) "s3://" "")
    with (bucket ++ "/" ++ path).
  rewrite (split_slash_app bucket path Hbucket).
  cbn [JS.slice1 tl]. rewrite join_split_slash. reflexivity.
Qed.

End UrlResolver.

Lemma cdn_url_placeholder_identity_witness :
  ProductImage.cdn_url Samples.cdn Samples.placeholder_with_s3_key
  = Some "https://picsum.photos/200".
Proof.
  apply (cdn_url_placeholder_identity Samples.cdn
           Samples.placeholder_with_s3_key "https://picsum.photos/200");
    reflexivity.
Defined.

Lemma cdn_url_s3_protocol_key_witness :
  ProductImage.cdn_url Samples.cdn Samples.plain_s3_key
  = Some ("https://cdn.example.com" ++ "/" ++ "products/7/a.png").
Proof.
  apply (cdn_url_s3_protocol_key Samples.cdn Samples.plain_s3_key
           "bucket" "products/7/a.png"); reflexivity.
Defined.

(** C2 as stated fails on three records whose key has the legacy form: one
    whose [url] is a placeholder URL (the [url] is returned), one whose key
    contains [amazonaws.com/] (the text after it is the path), and one whose
    scheme is not [s3] (the whole key is the path). *)
Lemma cdn_url_legacy_key_counterexample :
  (ProductImage.s3_key Samples.placeholder_with_s3_key
     = Some ("s3://" ++ "bucket" ++ "/" ++ "products/7/a.png") /\
   ProductImage.cdn_url Samples.cdn Samples.placeholder_with_s3_key
     = Some "https://picsum.photos/200" /\
   ProductImage.cdn_url Samples.cdn Samples.placeholder_with_s3_key
     <> Some (ProductImage.bunnyCDNUrl Samples.cdn ++ "/" ++ "products/7/a.png")) /\
  (ProductImage.s3_key Samples.s3_key_with_amazon_path
     = Some ("s3://" ++ "bucket" ++ "/" ++ "amazonaws.com/a.png") /\
   ProductImage.cdn_url Samples.cdn Samples.s3_key_with_amazon_path
     = Some "https://cdn.example.com/a.png" /\
   ProductImage.cdn_url Samples.cdn Samples.s3_key_with_amazon_path
     <> Some (ProductImage.bunnyCDNUrl Samples.cdn ++ "/" ++ "amazonaws.com/a.png")) /\
  (ProductImage.s3_key Samples.gs_key
     = Some ("gs://" ++ "bucket" ++ "/" ++ "products/7/a.png") /\
   ProductImage.cdn_url Samples.cdn Samples.gs_key
     = Some "https://cdn.example.com/gs://bucket/products/7/a.png" /\
   ProductImage.cdn_url Samples.cdn Samples.gs_key
     <> Some (ProductImage.bunnyCDNUrl Samples.cdn ++ "/" ++ "products/7/a.png")).
Proof.
  repeat split; try reflexivity; vm_compute; discriminate.
Qed.

(** ** The storage client: configuration and keys *)

Section Configuration.
Import BunnyCDNService Statements.

Lemma truthy_present (v : option string) : JS.truthy v = true <-> present v.
Proof.
  unfold present. destruct v as [s|]; cbn [JS.truthy].
  - destruct (String.eqb_spec s "") as [->|Hs]; cbn [negb]; split.
    + discriminate.
    + intros [s' [H Hne]]. injection H as <-. now elim Hne.
    + intros _. now exists s.
    + reflexivity.
  - split; [discriminate|]. intros [s [H _]]. discriminate.
Qed.

Lemma truthy_missing (v : option string) : JS.truthy v = false <-> missing v.
Proof.
  unfold missing. destruct v as [s|]; cbn [JS.truthy].
  - destruct (String.eqb_spec s "") as [->|Hs]; cbn [negb]; split.
    + intros _. now right.
    + reflexivity.
    + discriminate.
    + intros [H|H]; [discriminate|]. injection H as ->. now elim Hs.
  - split; [intros _; now left|reflexivity].
Qed.

(** C5: the client built from the environment is configured exactly when
    the storage URL, the public base URL and the access key are all
    present, and it is not configured exactly when at least one of them is
    missing. *)
Theorem isConfigured_iff_all_present (env : Env) :
  (isConfigured (new env) = true <->
     present (STORAGE_URL env) /\
     present (STORAGE_SERVER_BASE_URL env) /\
     present (STORAGE_SERVER_ACCESS_KEY env)) /\
  (isConfigured (new env) = false <->
     missing (STORAGE_URL env) \/
     missing (STORAGE_SERVER_BASE_URL env) \/
     missing (STORAGE_SERVER_ACCESS_KEY env)).
Proof.
  unfold isConfigured, new. cbn [storageUrl serverBaseUrl accessKey].
  rewrite <- !truthy_present, <- !truthy_missing.
  rewrite !andb_true_iff, !andb_false_iff. tauto.
Qed.

End Configuration.

Section Keys.
Import BunnyCDNService Statements.

Lemma sanitize_length (s : string) :
  String.length (sanitize s) = String.length s.
Proof. induction s as [|c s IH]; cbn; congruence. Qed.

(** Character by character: a character of the class is kept, any other
    becomes an underscore. *)
Lemma sanitize_get (s : string) (i : nat) :
  String.get i (sanitize s) =
  option_map (fun c => if is_key_char c then c else "_"%char) (String.get i s).
Proof.
  revert i. induction s as [|c s IH]; intros i; [reflexivity|].
  destruct i as [|i]; cbn; [reflexivity|apply IH].
Qed.

Lemma sanitize_in_class (s : string) :
  forallb is_key_char (list_ascii_of_string (sanitize s)) = true.
Proof.
  induction s as [|c s IH]; [reflexivity|].
  cbn [sanitize list_ascii_of_string forallb]. rewrite IH, andb_true_r.
  destruct (is_key_char c) eqn:E; [exact E|reflexivity].
Qed.

Lemma dot_blocks_extension (x y : string) :
  forallb not_slash_or_dot (list_ascii_of_string (x ++ "." ++ y)) = false.
Proof.
  induction x as [|c x IH]; [reflexivity|].
  cbn [append list_ascii_of_string forallb].
  change (list_ascii_of_string (x ++ String "." y))
    with (list_ascii_of_string (x ++ "." ++ y)).
  rewrite IH. apply andb_false_r.
Qed.

(** The extension is what follows the last dot, when that is non-empty and
    holds no slash: removing it leaves the text before that dot. *)
Lemma remove_extension_strips (stem ext : string) :
  ext <> "" ->
  forallb not_slash_or_dot (list_ascii_of_string ext) = true ->
  remove_extension (stem ++ "." ++ ext) = stem.
Proof.
  intros Hne Hext. induction stem as [|c stem IH].
  - destruct ext as [|e ext]; [now elim Hne|].
    cbn [append remove_extension is_extension].
    cbn [list_ascii_of_string] in Hext. rewrite Hext. reflexivity.
  - change (String c stem ++ "." ++ ext) with (String c (stem ++ "." ++ ext)).
    cbn [remove_extension].
    assert (Hno : is_extension (String c (stem ++ "." ++ ext)) = false).
    { unfold is_extension.
      destruct (stem ++ "." ++ ext) as [|d rest] eqn:E; [reflexivity|].
      change (d :: list_ascii_of_string rest)
        with (list_ascii_of_string (String d rest)).
      rewrite <- E, dot_blocks_extension. apply andb_false_r. }
    rewrite Hno, IH. reflexivity.
Qed.

Lemma substring_length (n m : nat) (s : string) :
  String.length (String.substring n m s) = Nat.min m (String.length s - n).
Proof.
  revert n m. induction s as [|c s IH]; intros n m.
  - destruct n, m; cbn; lia.
  - destruct n as [|n].
    + destruct m as [|m]; [reflexivity|].
      cbn [String.substring String.length]. rewrite IH. cbn. lia.
    + cbn [String.substring String.length]. rewrite IH. reflexivity.
Qed.

Lemma randomId_length (random36 : string) :
  String.length (randomId random36) = Nat.min 6 (String.length random36 - 2).
Proof. unfold randomId, JS.substring. apply substring_length. Qed.

(** C6, as the code has it: the key is
    [products/{productId}/images/{size}/{base}_{timestamp}_{random}.{extension}];
    [base] is [image] without a file name and the sanitized file name
    otherwise, where the extension after the last dot is removed first and
    every character outside the class becomes an underscore; [random] is
    made of the characters 2 to 7 of the base-36 rendering of the random
    number, so it has 6 characters when that rendering has at least 8 and
    fewer otherwise. *)
Theorem generateProductImageKey_shape (productId : N) (size extension : string)
    (filename : option string) (timestamp : N) (random36 : string) :
  generateProductImageKey productId size extension filename timestamp random36
  = "products/" ++ JS.of_N productId ++ "/images/" ++ size ++ "/" ++
    key_base filename ++ "_" ++ JS.of_N timestamp ++ "_" ++
    randomId random36 ++ "." ++ extension
  /\ (JS.truthy filename = false -> key_base filename = "image")
  /\ (forall name, filename = Some name -> name <> "" ->
        key_base filename = sanitize (remove_extension name)
        /\ String.length (key_base filename)
           = String.length (remove_extension name)
        /\ (forall i, String.get i (key_base filename) =
              option_map (fun c => if is_key_char c then c else "_"%char)
                         (String.get i (remove_extension name)))
        /\ forallb is_key_char (list_ascii_of_string (key_base filename)) = true)
  /\ (forall stem ext, filename = Some (stem ++ "." ++ ext) -> ext <> "" ->
        forallb not_slash_or_dot (list_ascii_of_string ext) = true ->
        key_base filename = sanitize stem)
  /\ String.length (randomId random36) <= 6
  /\ (8 <= String.length random36 -> String.length (randomId random36) = 6)
  /\ (String.length random36 < 8 ->
        String.length (randomId random36) = String.length random36 - 2).
Proof.
  split; [|split; [|split; [|split; [|split; [|split]]]]].
  - unfold generateProductImageKey, key_base, randomId.
    destruct (JS.truthy filename); reflexivity.
  - unfold key_base. now intros ->.
  - intros name -> Hname.
    assert (Hbase : key_base (Some name) = sanitize (remove_extension name)).
    { unfold key_base. cbn [JS.truthy JS.to_str].
      destruct (String.eqb_spec name "") as [->|_]; [now elim Hname|reflexivity]. }
    rewrite Hbase. split; [reflexivity|]. split; [apply sanitize_length|].
    split; [intros i; apply sanitize_get|apply sanitize_in_class].
  - intros stem ext -> Hne Hext. unfold key_base.
    assert (Ht : JS.truthy (Some (stem ++ "." ++ ext)) = true).
    { cbn [JS.truthy]. now destruct stem. }
    rewrite Ht. cbn [JS.to_str].
    now rewrite remove_extension_strips.
  - rewrite randomId_length. lia.
  - intros H. rewrite randomId_length. lia.
  - intros H. rewrite randomId_length. lia.
Qed.

End Keys.

Lemma generateProductImageKey_shape_witness :
  BunnyCDNService.generateProductImageKey 42 "thumb" "webp"
    (Some "my photo (1).png") 1700000000000 "0.4fzyo82mvyr"
  = "products/42/images/thumb/my_photo__1__1700000000000_4fzyo8.webp" /\
  Statements.key_base (Some "my photo (1).png")
  = BunnyCDNService.sanitize "my photo (1)" /\
  String.length (Statements.randomId "0.4fzyo82mvyr") = 6.
Proof.
  pose proof (generateProductImageKey_shape 42 "thumb" "webp"
                (Some "my photo (1).png") 1700000000000 "0.4fzyo82mvyr")
    as [Hkey [_ [_ [Hstem [_ [Hsix _]]]]]].
  split; [exact Hkey|]. split.
  - apply (Hstem "my photo (1)" "png"); [reflexivity|discriminate|reflexivity].
  - apply Hsix. vm_compute. lia.
Defined.

(** C6 as stated fails when the random number is one half: its base-36
    rendering is [0.i], and the random part of the key is the single
    character [i]. *)
Lemma generateProductImageKey_short_random :
  BunnyCDNService.is_random36 "0.i" = true /\
  BunnyCDNService.generateProductImageKey 42 "thumb" "webp" None
    1700000000000 "0.i"
  = "products/42/images/thumb/image_1700000000000_i.webp" /\
  ~ (exists random : string,
       String.length random = 6 /\
       BunnyCDNService.generateProductImageKey 42 "thumb" "webp" None
         1700000000000 "0.i"
       = "products/42/images/thumb/image_1700000000000_" ++ random ++ ".webp").
Proof.
  split; [reflexivity|]. split; [reflexivity|].
  intros [random [Hlen Hkey]].
  apply (f_equal (JS.drop 45)) in Hkey. vm_compute in Hkey.
  apply (f_equal String.length) in Hkey.
  change (String.length "i.webp" = String.length (random ++ ".webp")) in Hkey.
  rewrite append_length, Hlen in Hkey. discriminate Hkey.
Qed.

(** ** The storage client: [deleteFiles] *)

Section DeleteFiles.
Import Effects BunnyCDNService Statements.

Variable server : list Event -> Request -> Reply.
Variable this : BunnyCDNService.t.

Lemma deleteFile_unconfigured (key : string) (w : World) :
  isConfigured this = false ->
  deleteFile server this key w = (Throw (Error not_configured), w).
Proof. unfold deleteFile. now intros ->. Qed.

Lemma deleteFile_configured (key : string) (w : World) :
  isConfigured this = true ->
  deleteFile server this key w =
  (match server (log w) (delete_request this key) with
   | Resolved _ => Ok true
   | Rejected msg _ _ => Throw (Error ("Bunny CDN delete failed: " ++ msg))
   end,
   record (Http (delete_request this key)) w).
Proof.
  unfold deleteFile. intros ->. cbn [negb].
  unfold try_catch, bind, axios, ret, throw.
  fold (delete_request this key).
  destruct (server (log w) (delete_request this key)); reflexivity.
Qed.

(** The loop adds to [results] what the attempts on the remaining keys
    give. *)
Lemma deleteFiles_loop_spec (keys : list string) :
  forall (results : DeleteResults) (w : World),
    deleteFiles_loop server this keys results w =
    (Ok (mkResults
           (successful results ++ succeeded (fst (attempt_each server this keys w)))
           (failed results ++ failures (fst (attempt_each server this keys w)))),
     snd (attempt_each server this keys w)).
Proof.
  induction keys as [|key rest IH]; intros results w.
  - cbn. rewrite !app_nil_r. now destruct results.
  - cbn [deleteFiles_loop attempt_each].
    unfold bind at 1. unfold try_catch at 1. unfold bind at 1.
    destruct (deleteFile server this key w) as [[ok|e] w1].
    + unfold ret at 1. rewrite IH.
      destruct (attempt_each server this rest w1) as [outcomes w2].
      cbn [fst snd succeeded failures flat_map successful failed app].
      now rewrite <- !app_assoc.
    + unfold ret at 1. rewrite IH.
      destruct (attempt_each server this rest w1) as [outcomes w2].
      cbn [fst snd succeeded failures flat_map successful failed app].
      now rewrite <- !app_assoc.
Qed.

Lemma attempt_each_keys (keys : list string) :
  forall w, map fst (fst (attempt_each server this keys w)) = keys.
Proof.
  induction keys as [|key rest IH]; intros w; [reflexivity|].
  cbn [attempt_each].
  destruct (deleteFile server this key w) as [outcome w1].
  specialize (IH w1).
  destruct (attempt_each server this rest w1) as [outcomes w2].
  cbn [fst map] in *. now rewrite IH.
Qed.

(** Every attempted key lands on exactly one side. *)
Lemma outcomes_partition (outcomes : list (string * Result bool)) :
  Permutation (map fst outcomes)
              (succeeded outcomes ++ map fst (failures outcomes)).
Proof.
  induction outcomes as [|[key [ok|e]] rest IH]; [constructor| |].
  - cbn. now constructor.
  - cbn [map fst succeeded failures flat_map snd app].
    fold (succeeded rest). fold (failures rest).
    cbn [map fst app]. now apply Permutation_cons_app.
Qed.

Lemma attempt_each_configured (keys : list string) :
  isConfigured this = true ->
  forall w,
    log (snd (attempt_each server this keys w)) =
    (log w ++ map (fun key => Http (delete_request this key)) keys)%list
    /\ database (snd (attempt_each server this keys w)) = database w.
Proof.
  intros Hc. induction keys as [|key rest IH]; intros w.
  - cbn. now rewrite app_nil_r.
  - cbn [attempt_each]. rewrite (deleteFile_configured key w Hc).
    specialize (IH (record (Http (delete_request this key)) w)).
    destruct (attempt_each server this rest
                (record (Http (delete_request this key)) w)) as [outcomes w2].
    cbn [snd map] in *. destruct IH as [IHlog IHdb].
    rewrite IHlog, IHdb. cbn [record log]. now rewrite <- app_assoc.
Qed.

Lemma attempt_each_unconfigured (keys : list string) :
  isConfigured this = false ->
  forall w,
    attempt_each server this keys w =
    (map (fun key => (key, Throw (Error not_configured))) keys, w).
Proof.
  intros Hc. induction keys as [|key rest IH]; intros w; [reflexivity|].
  cbn [attempt_each]. rewrite (deleteFile_unconfigured key w Hc), IH.
  reflexivity.
Qed.

Lemma all_failed (keys : list string) (e : JsError) :
  succeeded (map (fun key => (key, Throw e)) keys) = [] /\
  failures (map (fun key => (key, Throw e)) keys)
  = map (fun key => (key, message e)) keys.
Proof.
  induction keys as [|key rest [IH1 IH2]]; [now split|].
  split; cbn; [exact IH1|]. f_equal. exact IH2.
Qed.

(** C7: [deleteFiles] never throws; it calls [deleteFile] once on every
    key, in the order of the list, whatever the earlier calls did; the keys
    whose call returned make up [successful] and the keys whose call threw
    make up [failed], each with the message of its error, so that the two
    lists together are a rearrangement of the input.  A configured client
    sends exactly one DELETE request per key, in order; a client that is
    not configured sends none and reports every key as failed. *)
Theorem deleteFiles_best_effort (keys : list string) (w : World) :
  let outcomes := fst (attempt_each server this keys w) in
  let w' := snd (attempt_each server this keys w) in
  deleteFiles server this keys w
  = (Ok (mkResults (succeeded outcomes) (failures outcomes)), w')
  /\ map fst outcomes = keys
  /\ Permutation keys (succeeded outcomes ++ map fst (failures outcomes))
  /\ List.length (succeeded outcomes) + List.length (failures outcomes)
     = List.length keys
  /\ (isConfigured this = true ->
        log w' = (log w ++ map (fun key => Http (delete_request this key)) keys)%list)
  /\ (isConfigured this = false ->
        w' = w /\ succeeded outcomes = [] /\
        failures outcomes = map (fun key => (key, not_configured)) keys).
Proof.
  intros outcomes w'. subst outcomes w'.
  pose proof (attempt_each_keys keys w) as Hkeys.
  pose proof (outcomes_partition (fst (attempt_each server this keys w))) as Hperm.
  rewrite Hkeys in Hperm.
  split; [|split; [exact Hkeys|split; [exact Hperm|split; [|split]]]].
  - unfold deleteFiles. rewrite deleteFiles_loop_spec. reflexivity.
  - apply Permutation_length in Hperm.
    rewrite length_app, length_map in Hperm. lia.
  - intros Hc. apply (attempt_each_configured keys Hc w).
  - intros Hc. rewrite (attempt_each_unconfigured keys Hc w). cbn [fst snd].
    split; [reflexivity|].
    exact (all_failed keys (Error not_configured)).
Qed.

End DeleteFiles.

Lemma deleteFiles_best_effort_witness :
  BunnyCDNService.deleteFiles Samples.server_failing_b Samples.service
    ["a"; "b"; "c"] Samples.empty_world
  = (Effects.Ok
       (BunnyCDNService.mkResults ["a"; "c"]
          [("b", "Bunny CDN delete failed: Request failed with status code 404")]),
     Effects.mkWorld [Samples.shirt] [] 1
       (map (fun key => Effects.Http (Statements.delete_request Samples.service key))
            ["a"; "b"; "c"]))
  /\ Effects.log (snd (Statements.attempt_each Samples.server_failing_b
                         Samples.service ["a"; "b"; "c"] Samples.empty_world))
     = (Effects.log Samples.empty_world ++
        map (fun key => Effects.Http (Statements.delete_request Samples.service key))
            ["a"; "b"; "c"])%list
  /\ BunnyCDNService.deleteFiles Samples.server_ok Samples.unconfigured
       ["a"; "b"] Samples.empty_world
     = (Effects.Ok
          (BunnyCDNService.mkResults []
             [("a", BunnyCDNService.not_configured);
              ("b", BunnyCDNService.not_configured)]),
        Samples.empty_world).
Proof.
  pose proof (deleteFiles_best_effort Samples.server_failing_b Samples.service
                ["a"; "b"; "c"] Samples.empty_world) as [Hres [_ [_ [_ [Hlog _]]]]].
  pose proof (deleteFiles_best_effort Samples.server_ok Samples.unconfigured
                ["a"; "b"] Samples.empty_world) as [Hres' [_ [_ [_ [_ Hnone]]]]].
  split; [rewrite Hres; reflexivity|]. split; [apply Hlog; reflexivity|].
  destruct (Hnone eq_refl) as [Hw [Hs Hf]].
  rewrite Hres', Hw, Hs, Hf. reflexivity.
Defined.

(** ** The migration script *)

Section MigrationRuns.
Import Effects BunnyCDNService Statements Migration.

Variable server : list Event -> Request -> Reply.
Variable refusal : list Event -> Query -> option JsError.
Variable service : BunnyCDNService.t.

Lemma testConnection_unconfigured (w : World) :
  isConfigured service = false ->
  testConnection server service w =
  (Ok (mkTest false (Some "Bunny CDN is not properly configured")
              None None None), w).
Proof. unfold testConnection. now intros ->. Qed.

Lemma testConnection_configured (w : World) :
  isConfigured service = true ->
  testConnection server service w =
  (Ok match server (log w) (probe_request service) with
      | Resolved status =>
          mkTest true None (Some status) None
                 (Some "Connection to Bunny CDN successful")
      | Rejected msg st txt => mkTest false (Some msg) st txt None
      end,
   record (Http (probe_request service)) w).
Proof.
  unfold testConnection. intros ->. cbn [negb].
  unfold try_catch, bind, axios, ret. fold (probe_request service).
  destruct (server (log w) (probe_request service)); reflexivity.
Qed.

(** C8: when the probe reports failure the script returns right after it:
    the database is as it was, and no call to the database (so neither the
    counts of Inventory nor the delete of Purge) was made; the only call of
    a configured client is the probe itself. *)
Theorem probe_failure_aborts (w w1 : World) (report : ConnectionTest) :
  testConnection server service w = (Ok report, w1) ->
  success report = false ->
  fst (migrateToBunnyCDN server refusal service w) = Returned /\
  database (snd (migrateToBunnyCDN server refusal service w)) = database w /\
  (exists calls,
      log (snd (migrateToBunnyCDN server refusal service w)) = (log w ++ calls)%list /\
      forallb (fun e => negb (is_db e)) calls = true /\
      forallb (fun e => negb (is_inventory e) && negb (is_purge e)) calls = true) /\
  (isConfigured service = true ->
     log (snd (migrateToBunnyCDN server refusal service w))
     = (log w ++ [Http (probe_request service)])%list).
Proof.
  intros Htest Hfail.
  assert (Hrun : migrateToBunnyCDN server refusal service w
                 = (Returned, if isConfigured service then w1 else w)).
  { unfold migrateToBunnyCDN, migrateToBunnyCDN_try.
    destruct (isConfigured service); cbn [negb]; [|reflexivity].
    unfold bind at 1. rewrite Htest, Hfail. reflexivity. }
  rewrite Hrun. cbn [fst snd].
  destruct (isConfigured service) eqn:Hc.
  - rewrite (testConnection_configured w Hc) in Htest.
    injection Htest as _ <-.
    split; [reflexivity|]. split; [reflexivity|]. split; [|reflexivity].
    exists [Http (probe_request service)]. now split.
  - split; [reflexivity|]. split; [reflexivity|]. split; [|discriminate].
    exists []. now rewrite app_nil_r.
Qed.

(** C9: on an empty [product_images] table, when the two counts of
    Inventory are answered, the script returns normally, leaves the database
    as it was, and makes no Purge call and no storage write (no PUT, no
    DELETE).  When the client is configured and the probe succeeds, the
    calls are the probe and the two counts of Inventory, and nothing after
    them. *)
Theorem empty_store_is_noop (w : World) :
  product_images w = [] ->
  refusal (log w ++ [Http (probe_request service)]) CountImages = None ->
  refusal (log w ++ [Http (probe_request service); Db CountImages])
          CountProductsWithImages = None ->
  fst (migrateToBunnyCDN server refusal service w) = Returned /\
  database (snd (migrateToBunnyCDN server refusal service w)) = database w /\
  (exists calls,
      log (snd (migrateToBunnyCDN server refusal service w))
      = (log w ++ calls)%list /\
      forallb (fun e => negb (is_purge e) && negb (is_storage_write e)) calls
      = true) /\
  (isConfigured service = true ->
   (exists status, server (log w) (probe_request service) = Resolved status) ->
   log (snd (migrateToBunnyCDN server refusal service w))
   = (log w ++ [Http (probe_request service); Db CountImages;
                Db CountProductsWithImages])%list).
Proof.
  intros Hempty Hcount Hproducts.
  assert (Hrun : migrateToBunnyCDN server refusal service w =
            (Returned,
             if isConfigured service then
               match server (log w) (probe_request service) with
               | Resolved _ =>
                   record (Db CountProductsWithImages)
                     (record (Db CountImages)
                        (record (Http (probe_request service)) w))
               | Rejected _ _ _ => record (Http (probe_request service)) w
               end
             else w)).
  { unfold migrateToBunnyCDN, migrateToBunnyCDN_try.
    destruct (isConfigured service) eqn:Hc; cbn [negb]; [|reflexivity].
    unfold bind at 1. rewrite (testConnection_configured w Hc).
    destruct (server (log w) (probe_request service)); [|reflexivity].
    cbn [success negb].
    unfold bind, ProductImage_count, Product_count_with_images, query, ret.
    cbn [record log]. rewrite Hcount.
    cbn [record log product_images]. rewrite <- app_assoc. cbn [app].
    rewrite Hproducts, Hempty. reflexivity. }
  rewrite Hrun. cbn [fst snd].
  split; [reflexivity|].
  destruct (isConfigured service) eqn:Hc.
  - destruct (server (log w) (probe_request service)) as [status|msg st txt].
    + split; [reflexivity|]. split.
      * exists [Http (probe_request service); Db CountImages;
                Db CountProductsWithImages].
        split; [|reflexivity]. cbn [record log]. now rewrite <- !app_assoc.
      * intros _ _. cbn [record log]. now rewrite <- !app_assoc.
    + split; [reflexivity|]. split.
      * exists [Http (probe_request service)]. now split.
      * intros _ [status Hs]. discriminate Hs.
  - split; [reflexivity|]. split; [|discriminate].
    exists []. now rewrite app_nil_r.
Qed.

End MigrationRuns.

Lemma probe_failure_aborts_witness :
  fst (Migration.migrateToBunnyCDN Samples.server_401 Samples.database_up
         Samples.service
         Samples.populated_world) = Migration.Returned /\
  Statements.database
    (snd (Migration.migrateToBunnyCDN Samples.server_401 Samples.database_up
         Samples.service
            Samples.populated_world))
  = ([Samples.shirt], [Samples.stored], 2%Z) /\
  Effects.log
    (snd (Migration.migrateToBunnyCDN Samples.server_401 Samples.database_up
         Samples.service
            Samples.populated_world))
  = [Effects.Http (Statements.probe_request Samples.service)].
Proof.
  destruct (probe_failure_aborts Samples.server_401 Samples.database_up
              Samples.service
              Samples.populated_world
              (Effects.record (Effects.Http (Statements.probe_request Samples.service))
                 Samples.populated_world)
              (BunnyCDNService.mkTest false
                 (Some "Request failed with status code 401") (Some 401%Z)
                 (Some "Unauthorized") None)
              eq_refl eq_refl) as [Hout [Hdb [_ Hlog]]].
  split; [exact Hout|]. split; [exact Hdb|]. apply Hlog. reflexivity.
Defined.

Lemma empty_store_is_noop_witness :
  fst (Migration.migrateToBunnyCDN Samples.server_ok Samples.database_up
         Samples.service
         Samples.empty_world) = Migration.Returned /\
  Statements.database
    (snd (Migration.migrateToBunnyCDN Samples.server_ok Samples.database_up
         Samples.service
            Samples.empty_world))
  = ([Samples.shirt], [], 1%Z) /\
  Effects.log
    (snd (Migration.migrateToBunnyCDN Samples.server_ok Samples.database_up
         Samples.service
            Samples.empty_world))
  = [Effects.Http (Statements.probe_request Samples.service);
     Effects.Db Effects.CountImages; Effects.Db Effects.CountProductsWithImages].
Proof.
  destruct (empty_store_is_noop Samples.server_ok Samples.database_up
              Samples.service Samples.empty_world eq_refl eq_refl eq_refl)
    as [Hout [Hdb [_ Hlog]]].
  split; [exact Hout|]. split; [exact Hdb|].
  apply Hlog; [reflexivity|]. now exists 200%Z.
Defined.

(** ** Position of a created image *)

Section Positions.
Import Effects Hooks Statements.

Lemma withAlt_same (image : ProductImage.t) :
  ProductImage.withAlt image (ProductImage.alt image) = image.
Proof. destruct image; reflexivity. Qed.

(** [beforeValidate] only ever sets [alt], and only reads the database. *)
Lemma beforeValidate_spec (image : ProductImage.t) (w : World) :
  exists a w1,
    beforeValidate image w = (Ok (ProductImage.withAlt image a), w1) /\
    database w1 = database w.
Proof.
  unfold beforeValidate.
  destruct (negb (JS.truthy (ProductImage.alt image)) &&
            negb (ProductImage.product_id image =? 0)%Z).
  - unfold bind, Product_findByPk.
    destruct (find _ (products w)) as [p|].
    + eexists _, _. split; reflexivity.
    + exists (ProductImage.alt image). eexists.
      rewrite withAlt_same. split; reflexivity.
  - exists (ProductImage.alt image), w.
    rewrite withAlt_same. split; reflexivity.
Qed.

(** What [beforeCreate] computes when the position is missing: one more
    than the maximum only when that maximum is not zero. *)
Lemma beforeCreate_missing_position (image : ProductImage.t) (w : World) :
  ProductImage.position image = None ->
  fst (beforeCreate image w) =
  Ok (ProductImage.withPosition image
        (match max_of (positions_of (ProductImage.product_id image)
                                    (product_images w)) with
         | None => Some 0%Z
         | Some m => if (m =? 0)%Z then Some 0%Z else Some (m + 1)%Z
         end)).
Proof.
  unfold beforeCreate. intros ->.
  unfold bind, ProductImage_max_position, ret. cbn [fst].
  destruct (max_of _) as [m|]; cbn [num_or_else]; [|reflexivity].
  destruct (m =? 0)%Z; reflexivity.
Qed.

(** An image created without a position gets the declared default, 0; the
    hook finds the position already set and leaves it. *)
Lemma create_without_position (values : ProductImage.t) (w : World) :
  ProductImage.position values = None ->
  exists row w',
    create values w = (Ok row, w') /\
    ProductImage.position row = Some 0%Z /\
    ProductImage.product_id row = ProductImage.product_id values /\
    product_images w' = (product_images w ++ [row])%list.
Proof.
  intros Hpos. unfold create.
  destruct (beforeValidate_spec (build values) w) as [a [w1 [Hbv Hdb]]].
  unfold bind at 1. rewrite Hbv.
  assert (Hp : ProductImage.position (ProductImage.withAlt (build values) a)
               = Some 0%Z).
  { unfold build. rewrite Hpos. reflexivity. }
  unfold bind, beforeCreate. rewrite Hp. unfold ret, ProductImage_insert.
  eexists _, _. split; [reflexivity|].
  cbn [ProductImage.withId ProductImage.position ProductImage.product_id
       record product_images].
  split; [exact Hp|]. split.
  - unfold build. rewrite Hpos. reflexivity.
  - unfold database in Hdb. injection Hdb as _ Himgs _. now rewrite Himgs.
Qed.

(** C1 on the code: three images created in a row without a position, for
    a product that has no image yet, all get position 0 (not 0, 1, 2), and
    all three count as primary.  The hook would not give 1 to the second
    image either: run on it with the position still missing, once the first
    image is stored, it finds the maximum 0, takes it for a missing value
    and sets position 0 again. *)
Theorem create_three_without_position (w : World)
    (v1 v2 v3 : ProductImage.t) :
  ProductImage.position v1 = None ->
  ProductImage.position v2 = None ->
  ProductImage.position v3 = None ->
  ProductImage.product_id v2 = ProductImage.product_id v1 ->
  ProductImage.product_id v3 = ProductImage.product_id v1 ->
  positions_of (ProductImage.product_id v1) (product_images w) = [] ->
  (exists rows w',
      create_all [v1; v2; v3] w = (Ok rows, w') /\
      map ProductImage.position rows = [Some 0; Some 0; Some 0]%Z /\
      map ProductImage.position rows <> [Some 0; Some 1; Some 2]%Z /\
      map ProductImage.isPrimary rows = [true; true; true]) /\
  (exists row1 w1,
      create v1 w = (Ok row1, w1) /\
      fst (beforeCreate v2 w1)
      = Ok (ProductImage.withPosition v2 (Some 0%Z))).
Proof.
  intros H1 H2 H3 Hid2 _ Hfresh.
  destruct (create_without_position v1 w H1) as [r1 [w1 [E1 [P1 [I1 T1]]]]].
  destruct (create_without_position v2 w1 H2) as [r2 [w2 [E2 [P2 _]]]].
  destruct (create_without_position v3 w2 H3) as [r3 [w3 [E3 [P3 _]]]].
  split.
  - exists [r1; r2; r3], w3.
    cbn [create_all]. unfold bind at 1. rewrite E1.
    unfold bind at 1. unfold bind at 1. rewrite E2.
    unfold bind at 1. unfold bind at 1. rewrite E3.
    unfold bind, ret.
    split; [reflexivity|].
    cbn [map]. unfold ProductImage.isPrimary. rewrite P1, P2, P3.
    split; [reflexivity|]. split; [discriminate|reflexivity].
  - exists r1, w1. split; [exact E1|].
    rewrite (beforeCreate_missing_position v2 w1 H2), Hid2, T1.
    unfold positions_of. rewrite flat_map_app.
    fold (positions_of (ProductImage.product_id v1) (product_images w)).
    rewrite Hfresh. cbn [flat_map app]. rewrite I1, Z.eqb_refl, P1.
    reflexivity.
Qed.

End Positions.

Lemma create_three_without_position_witness :
  exists rows w',
    Hooks.create_all
      [Samples.image (Some "https://cdn.example.com/a.png") (Some "products/7/a.png");
       Samples.image (Some "https://cdn.example.com/b.png") (Some "products/7/b.png");
       Samples.image (Some "https://cdn.example.com/c.png") (Some "products/7/c.png")]
      Samples.empty_world = (Effects.Ok rows, w') /\
    map ProductImage.position rows = [Some 0; Some 0; Some 0]%Z /\
    map ProductImage.position rows <> [Some 0; Some 1; Some 2]%Z /\
    map ProductImage.isPrimary rows = [true; true; true].
Proof.
  apply (create_three_without_position Samples.empty_world); reflexivity.
Defined.

(** * Further properties *)

(** ** More on strings *)

Section MoreStringFacts.

Lemma append_assoc3 (a b c : string) : ((a ++ b) ++ c = a ++ b ++ c)%string.
Proof. induction a as [|x a IH]; cbn; congruence. Qed.

(** A prefix test only looks at as many characters as the prefix has. *)
Lemma startsWith_app_l (p x y : string) :
  String.length p <= String.length x ->
  JS.startsWith (x ++ y) p = JS.startsWith x p.
Proof.
  revert x. induction p as [|a p IH]; intros x Hlen; [reflexivity|].
  destruct x as [|b x]; cbn [String.length] in Hlen; [lia|].
  cbn [append JS.startsWith]. rewrite IH by lia. reflexivity.
Qed.

(** Passing over the rest of a separator occurrence. *)
Lemma split_skip_consume (sep t rest : string) :
  JS.split_skip sep (String.length t) (t ++ rest) = JS.split_skip sep 0 rest.
Proof.
  induction t as [|c t IH]; [reflexivity|].
  cbn [String.length append JS.split_skip]. exact IH.
Qed.

(** A string without the separator is a single piece. *)
Lemma split_without_separator (sep s : string) :
  JS.includes s sep = false -> JS.split s sep = [s].
Proof.
  unfold JS.split. induction s as [|c s IH]; intros H; [reflexivity|].
  apply includes_cons_false in H. destruct H as [Hhere Hrest].
  cbn [JS.split_skip]. rewrite Hhere, (IH Hrest). reflexivity.
Qed.

(** The text before the first [amazonaws.com/] is the first piece. *)
Lemma split_amazon_first (pre rest : string) :
  JS.includes (pre ++ "amazonaws.com") "amazonaws.com/" = false ->
  JS.split (pre ++ "amazonaws.com/" ++ rest) "amazonaws.com/"
  = pre :: JS.split rest "amazonaws.com/".
Proof.
  unfold JS.split. induction pre as [|c pre IH]; intros H.
  - change ("" ++ "amazonaws.com/" ++ rest)%string
      with (String "a" ("mazonaws.com/" ++ rest)).
    cbn [JS.split_skip].
    change (JS.startsWith (String "a" ("mazonaws.com/" ++ rest)) "amazonaws.com/")
      with true.
    cbv iota.
    change (String.length "amazonaws.com/" - 1)
      with (String.length "mazonaws.com/").
    now rewrite split_skip_consume.
  - change (String c pre ++ "amazonaws.com")%string
      with (String c (pre ++ "amazonaws.com")) in H.
    apply includes_cons_false in H. destruct H as [Hhere Hrest].
    change (String c pre ++ "amazonaws.com/" ++ rest)%string
      with (String c (pre ++ "amazonaws.com/" ++ rest)).
    cbn [JS.split_skip].
    assert (Hno : JS.startsWith (String c (pre ++ "amazonaws.com/" ++ rest))
                    "amazonaws.com/" = false).
    { change (pre ++ "amazonaws.com/" ++ rest)%string
        with (pre ++ "amazonaws.com" ++ "/" ++ rest)%string.
      rewrite <- append_assoc3.
      change (String c ((pre ++ "amazonaws.com") ++ "/" ++ rest))
        with (String c (pre ++ "amazonaws.com") ++ "/" ++ rest)%string.
      rewrite startsWith_app_l; [exact Hhere|].
      cbn [String.length]. rewrite append_length. cbn [String.length]. lia. }
    rewrite Hno, (IH Hrest). reflexivity.
Qed.

Lemma startsWith_own_prefix (p y : string) : JS.startsWith (p ++ y) p = true.
Proof.
  induction p as [|a p IH]; [reflexivity|].
  cbn [append JS.startsWith]. now rewrite Ascii.eqb_refl, IH.
Qed.

(** What occurs in a string occurs in any string that ends with it. *)
Lemma includes_after (pre s p : string) :
  JS.includes s p = true -> JS.includes (pre ++ s) p = true.
Proof.
  intros H. induction pre as [|c pre IH]; [exact H|].
  cbn [append JS.includes]. rewrite IH. apply orb_true_r.
Qed.

Lemma includes_amazon (pre rest : string) :
  JS.includes (pre ++ "amazonaws.com/" ++ rest) "amazonaws.com/" = true.
Proof.
  apply includes_after.
  destruct rest; reflexivity.
Qed.

End MoreStringFacts.

(** ** More on the URL resolver and the model *)

Section MoreUrlResolver.
Import ProductImage.

Variable base : option string.

(** X1: without a key ([s3_key] missing or empty) the resolver returns the
    stored [url], whatever it is. *)
Theorem cdn_url_without_key (r : t) :
  JS.truthy (s3_key r) = false -> cdn_url base r = url r.
Proof.
  intros Hkey. destruct (returns_url_early r) eqn:Hearly.
  - exact (cdn_url_early base r Hearly).
  - rewrite (cdn_url_late base r Hearly), Hkey. reflexivity.
Qed.

(** X2: a [url] that is an absolute HTTP(S) URL on a Bunny CDN host is
    returned unchanged, whatever the key. *)
Theorem cdn_url_bunny_identity (r : t) (u : string) :
  url r = Some u ->
  is_absolute_http u = true ->
  on_bunny_host u = true ->
  cdn_url base r = Some u.
Proof.
  intros Hu Habs Hhost.
  rewrite (cdn_url_early base r), Hu; [reflexivity|].
  unfold returns_url_early. rewrite Hu. cbn [JS.to_str JS.truthy].
  rewrite Habs, Hhost, orb_true_r.
  destruct u; [discriminate Habs|reflexivity].
Qed.

(** X3: a key that is an S3 URL, [...amazonaws.com/path], resolves to the
    CDN base, a slash and [path]: the text after the first
    [amazonaws.com/], when [path] holds no further [amazonaws.com/]. *)
Theorem cdn_url_amazon_key (r : t) (pre path : string) :
  s3_key r = Some (pre ++ "amazonaws.com/" ++ path) ->
  JS.includes (pre ++ "amazonaws.com") "amazonaws.com/" = false ->
  JS.includes path "amazonaws.com/" = false ->
  returns_url_early r = false ->
  cdn_url base r = Some (bunnyCDNUrl base ++ "/" ++ path).
Proof.
  intros Hkey Hpre Hpath Hearly.
  rewrite (cdn_url_late base r Hearly), Hkey.
  assert (Ht : JS.truthy (Some (pre ++ "amazonaws.com/" ++ path)) = true).
  { cbn [JS.truthy]. now destruct pre. }
  rewrite Ht. cbn [JS.to_str]. unfold imagePath.
  rewrite includes_amazon, (split_amazon_first pre path Hpre).
  rewrite (split_without_separator _ path Hpath). reflexivity.
Qed.

(** X4: when the path after the first [amazonaws.com/] contains
    [amazonaws.com/] again, only the text between the first two occurrences
    is kept. *)
Theorem cdn_url_amazon_key_twice (r : t) (pre mid rest : string) :
  s3_key r = Some (pre ++ "amazonaws.com/" ++ mid ++ "amazonaws.com/" ++ rest) ->
  JS.includes (pre ++ "amazonaws.com") "amazonaws.com/" = false ->
  JS.includes (mid ++ "amazonaws.com") "amazonaws.com/" = false ->
  returns_url_early r = false ->
  cdn_url base r = Some (bunnyCDNUrl base ++ "/" ++ mid).
Proof.
  intros Hkey Hpre Hmid Hearly.
  rewrite (cdn_url_late base r Hearly), Hkey.
  assert (Ht : JS.truthy
                 (Some (pre ++ "amazonaws.com/" ++ mid ++ "amazonaws.com/" ++ rest))
               = true).
  { cbn [JS.truthy]. now destruct pre. }
  rewrite Ht. cbn [JS.to_str]. unfold imagePath.
  rewrite includes_amazon.
  rewrite (split_amazon_first pre _ Hpre), (split_amazon_first mid rest Hmid).
  reflexivity.
Qed.

End MoreUrlResolver.

Section PlainKeys.
Import ProductImage.

Variable base : option string.

Lemma cdn_url_plain_key_holds (r : t) (key : string) :
  s3_key r = Some key ->
  key <> "" ->
  JS.includes key "amazonaws.com/" = false ->
  JS.includes key "s3://" = false ->
  returns_url_early r = false ->
  cdn_url base r = Some (bunnyCDNUrl base ++ "/" ++ key) /\
  cdn_url base r = getFullS3Url base r.
Proof.
  intros Hkey Hne Hamazon Hs3 Hearly.
  assert (Ht : JS.truthy (s3_key r) = true).
  { rewrite Hkey. cbn [JS.truthy].
    destruct (String.eqb_spec key "") as [->|_]; [now elim Hne|reflexivity]. }
  rewrite (cdn_url_late base r Hearly). unfold getFullS3Url.
  rewrite Ht, Hkey. cbn [JS.to_str]. unfold imagePath.
  rewrite Hamazon, Hs3. split; reflexivity.
Qed.

(** X5: for a key that is neither an S3 URL nor an [s3://] key, and a [url]
    the resolver does not return as it is, [cdn_url] and [getFullS3Url]
    agree: both give the CDN base, a slash and the key. *)
Theorem cdn_url_plain_key (r : t) (key : string) :
  s3_key r = Some key ->
  key <> "" ->
  JS.includes key "amazonaws.com/" = false ->
  JS.includes key "s3://" = false ->
  returns_url_early r = false ->
  cdn_url base r = Some (bunnyCDNUrl base ++ "/" ++ key) /\
  cdn_url base r = getFullS3Url base r.
Proof. exact (cdn_url_plain_key_holds r key). Qed.

End PlainKeys.

Section NumberTests.
Import ProductImage ProductImageMethods.

Lemma is_truthy_and (a b : JsValue) :
  is_truthy (js_and a b) = is_truthy a && is_truthy b.
Proof.
  unfold js_and. destruct (is_truthy a) eqn:E; [reflexivity|exact E].
Qed.

(** X6: [hasValidDimensions()] is truthy exactly when width and height are
    both set and positive, and then [getDimensions()] is the string
    [{width}x{height}]; [hasValidFileSize()] is truthy exactly when the file
    size is set and positive. *)
Theorem number_tests (r : t) :
  (is_truthy (hasValidDimensions r) = true <->
   exists w h, width r = Some w /\ height r = Some h /\ (0 < w)%Z /\ (0 < h)%Z) /\
  (forall w h, width r = Some w -> height r = Some h ->
     is_truthy (hasValidDimensions r) = true ->
     getDimensions r = Some (of_Z w ++ "x" ++ of_Z h)) /\
  (is_truthy (hasValidFileSize r) = true <->
   exists n, file_size r = Some n /\ (0 < n)%Z).
Proof.
  split; [|split].
  - unfold hasValidDimensions. rewrite !is_truthy_and. unfold of_field, gt0.
    destruct (width r) as [w|], (height r) as [h|]; cbn [is_truthy].
    + rewrite !andb_true_iff, !negb_true_iff, !Z.eqb_neq, !Z.ltb_lt. split.
      * intros [[[_ _] Hw] Hh]. now exists w, h.
      * intros [w' [h' [Ew [Eh [Hw Hh]]]]].
        injection Ew as <-. injection Eh as <-. repeat split; lia.
    + rewrite !andb_false_r. split; [discriminate|].
      intros [w' [h' [_ [Eh _]]]]. discriminate Eh.
    + split; [discriminate|]. intros [w' [h' [Ew _]]]. discriminate Ew.
    + split; [discriminate|]. intros [w' [h' [Ew _]]]. discriminate Ew.
  - intros w h Hw Hh Ht. unfold hasValidDimensions in Ht.
    rewrite !is_truthy_and, !andb_true_iff in Ht.
    destruct Ht as [[[Tw Th] _] _].
    unfold getDimensions. rewrite is_truthy_and, Tw, Th, Hw, Hh. reflexivity.
  - unfold hasValidFileSize. rewrite is_truthy_and. unfold of_field, gt0.
    destruct (file_size r) as [n|]; cbn [is_truthy].
    + rewrite andb_true_iff, negb_true_iff, Z.eqb_neq, Z.ltb_lt. split.
      * intros [_ Hn]. now exists n.
      * intros [n' [En Hn]]. injection En as <-. split; lia.
    + split; [discriminate|]. intros [n' [En _]]. discriminate En.
Qed.

End NumberTests.

(** ** More on the hooks *)

Section MoreHooks.
Import Effects Hooks Statements.

Lemma fold_max_spec (l : list Z) :
  forall a : Z,
  exists m,
    fold_left (fun acc p => match acc with
                            | Some m => Some (Z.max m p)
                            | None => Some p
                            end) l (Some a) = Some m /\
    (a <= m)%Z /\ (forall p, In p l -> (p <= m)%Z) /\ (m = a \/ In m l).
Proof.
  induction l as [|p l IH]; intros a.
  - exists a. cbn. repeat split; [lia|contradiction|now left].
  - destruct (IH (Z.max a p)) as [m [Hm [Hle [Hall Hin]]]].
    exists m. cbn [fold_left]. split; [exact Hm|]. split; [lia|]. split.
    + intros q [<-|Hq]; [lia|now apply Hall].
    + destruct Hin as [->|Hin]; [|right; now right].
      destruct (Z.max_spec a p) as [[_ ->]|[_ ->]]; [right; now left|now left].
Qed.

(** The maximum of a non-empty list is one of its elements and bounds all
    of them. *)
Lemma max_of_spec (l : list Z) (q : Z) :
  In q l ->
  exists m, max_of l = Some m /\ In m l /\ forall p, In p l -> (p <= m)%Z.
Proof.
  destruct l as [|a l]; [contradiction|]. intros _.
  destruct (fold_max_spec l a) as [m [Hm [Hle [Hall Hin]]]].
  exists m. split; [exact Hm|]. split.
  - destruct Hin as [->|Hin]; [now left|now right].
  - intros p [<-|Hp]; [exact Hle|now apply Hall].
Qed.

Lemma positions_of_in (pid p : Z) (rows : list ProductImage.t) :
  In p (positions_of pid rows) <->
  exists row, In row rows /\ ProductImage.product_id row = pid /\
              ProductImage.position row = Some p.
Proof.
  unfold positions_of. rewrite in_flat_map. split.
  - intros [row [Hrow Hp]]. exists row. split; [exact Hrow|].
    destruct (Z.eqb_spec (ProductImage.product_id row) pid) as [E|_];
      [|contradiction].
    destruct (ProductImage.position row) as [p'|]; [|contradiction].
    destruct Hp as [<-|[]]. now split.
  - intros [row [Hrow [Hpid Hpos]]]. exists row. split; [exact Hrow|].
    rewrite Hpid, Z.eqb_refl, Hpos. now left.
Qed.

(** X7: when the product already has an image at a positive position, the
    hook gives an image without position one more than the largest position
    of the product, which is above every position the product has; it only
    reads the database. *)
Theorem beforeCreate_next_position (image row0 : ProductImage.t) (p0 : Z)
    (w : World) :
  ProductImage.position image = None ->
  In row0 (product_images w) ->
  ProductImage.product_id row0 = ProductImage.product_id image ->
  ProductImage.position row0 = Some p0 ->
  (0 < p0)%Z ->
  exists n,
    fst (beforeCreate image w)
    = Ok (ProductImage.withPosition image (Some n)) /\
    (forall row p, In row (product_images w) ->
       ProductImage.product_id row = ProductImage.product_id image ->
       ProductImage.position row = Some p -> (p < n)%Z) /\
    (exists row, In row (product_images w) /\
       ProductImage.product_id row = ProductImage.product_id image /\
       ProductImage.position row = Some (n - 1)%Z) /\
    database (snd (beforeCreate image w)) = database w.
Proof.
  intros Hpos Hin Hpid Hp0 Hgt.
  assert (Hmem : In p0 (positions_of (ProductImage.product_id image)
                                     (product_images w))).
  { apply positions_of_in. now exists row0. }
  destruct (max_of_spec _ p0 Hmem) as [m [Hmax [Hm Hall]]].
  assert (Hm0 : (m =? 0)%Z = false).
  { apply Z.eqb_neq. specialize (Hall p0 Hmem). lia. }
  exists (m + 1)%Z. split; [|split; [|split]].
  - rewrite (beforeCreate_missing_position image w Hpos), Hmax, Hm0.
    reflexivity.
  - intros row p Hrow Hrpid Hrpos.
    assert (Hp : In p (positions_of (ProductImage.product_id image)
                                    (product_images w))).
    { apply positions_of_in. now exists row. }
    specialize (Hall p Hp). lia.
  - apply positions_of_in in Hm. destruct Hm as [row [Hrow [Hrpid Hrpos]]].
    exists row. replace (m + 1 - 1)%Z with m by lia. now repeat split.
  - unfold beforeCreate. rewrite Hpos. reflexivity.
Qed.

(** X8: each hook changes its own field only, and only when it is
    missing.  [beforeValidate] returns the image with at most [alt]
    changed, and as it is, without any query, when a non-empty [alt] was
    given; [beforeCreate] returns the image with at most [position]
    changed, and as it is, without any query, when a position was given
    (even one that ties with a stored image).  Neither changes the
    database. *)
Theorem hooks_change_only_missing_fields (image : ProductImage.t) (w : World) :
  (exists a,
      fst (beforeValidate image w) = Ok (ProductImage.withAlt image a) /\
      (JS.truthy (ProductImage.alt image) = true ->
       beforeValidate image w = (Ok image, w))) /\
  database (snd (beforeValidate image w)) = database w /\
  (exists p,
      fst (beforeCreate image w) = Ok (ProductImage.withPosition image p) /\
      (forall q, ProductImage.position image = Some q ->
         beforeCreate image w = (Ok image, w))) /\
  database (snd (beforeCreate image w)) = database w.
Proof.
  split; [|split; [|split]].
  - destruct (beforeValidate_spec image w) as [a [w1 [Hrun _]]].
    exists a. rewrite Hrun. split; [reflexivity|].
    intros Halt. rewrite <- Hrun. unfold beforeValidate. now rewrite Halt.
  - destruct (beforeValidate_spec image w) as [a [w1 [Hrun Hdb]]].
    now rewrite Hrun.
  - unfold beforeCreate.
    destruct (ProductImage.position image) as [q|] eqn:Hpos.
    + exists (Some q). split.
      * cbn [ret fst]. rewrite <- Hpos. now destruct image.
      * intros q' _. reflexivity.
    + eexists. split; [reflexivity|]. intros q H. discriminate H.
  - unfold beforeCreate.
    destruct (ProductImage.position image); reflexivity.
Qed.

(** X9: for an image without alt text, [beforeValidate] asks for the
    product once; when the product is found the alt text becomes
    [<title> - Product Image], which is 16 characters longer than the
    title, and when it is not found the image is returned as it is. *)
Theorem beforeValidate_derives_alt (image : ProductImage.t) (w : World) :
  JS.truthy (ProductImage.alt image) = false ->
  ProductImage.product_id image <> 0%Z ->
  beforeValidate image w =
  (Ok match find (fun p => (product_pk p =? ProductImage.product_id image)%Z)
                 (products w) with
      | Some product =>
          ProductImage.withAlt image (Some (title product ++ " - Product Image"))
      | None => image
      end,
   record (Db (FindProductByPk (ProductImage.product_id image))) w) /\
  (forall product,
     find (fun p => (product_pk p =? ProductImage.product_id image)%Z)
          (products w) = Some product ->
     String.length (title product ++ " - Product Image")
     = String.length (title product) + 16).
Proof.
  intros Halt Hpid. split.
  - unfold beforeValidate. rewrite Halt.
    assert (Hnz : (ProductImage.product_id image =? 0)%Z = false)
      by now apply Z.eqb_neq.
    rewrite Hnz. cbn [negb andb]. unfold bind, Product_findByPk.
    destruct (find _ (products w)); reflexivity.
  - intros product _. now rewrite append_length.
Qed.

End MoreHooks.

(** ** More on the storage client *)

Section MoreService.
Import Effects BunnyCDNService Statements Requests.

Variable server : list Event -> Request -> Reply.
Variable this : BunnyCDNService.t.

Lemma uploadFile_configured (fileBuffer : list Byte.byte)
    (key contentType : string) (w : World) :
  isConfigured this = true ->
  uploadFile server this fileBuffer key contentType w =
  (match server (log w) (put_request this fileBuffer key contentType) with
   | Resolved _ =>
       Ok (mkUpload key (getPublicUrl this key)
                    (Z.of_nat (List.length fileBuffer)) contentType)
   | Rejected msg _ _ => Throw (Error ("Bunny CDN upload failed: " ++ msg))
   end,
   record (Http (put_request this fileBuffer key contentType)) w).
Proof.
  unfold uploadFile. intros ->. cbn [negb].
  unfold try_catch, bind, axios, ret, throw.
  fold (put_request this fileBuffer key contentType).
  destruct (server (log w) (put_request this fileBuffer key contentType));
    reflexivity.
Qed.

Lemma configured_public_url (key : string) :
  isConfigured this = true ->
  JS.truthy (serverBaseUrl this) = true /\
  getPublicUrl this key = (JS.to_str (serverBaseUrl this) ++ "/" ++ key)%string /\
  ProductImage.bunnyCDNUrl (serverBaseUrl this) = JS.to_str (serverBaseUrl this).
Proof.
  unfold isConfigured, getPublicUrl. intros H.
  apply andb_true_iff in H. destruct H as [H _].
  apply andb_true_iff in H. destruct H as [_ H]. rewrite H.
  split; [reflexivity|]. split; [reflexivity|].
  destruct (serverBaseUrl this) as [s|]; [|discriminate H].
  cbn in H |- *. now destruct (s =? "")%string.
Qed.

(** X10: on a configured client whose PUT the storage accepts, [uploadFile]
    sends exactly one request, the PUT to [storageUrl/key] with the access
    key, the content type and the cache directive, and returns the key, the
    public URL [serverBaseUrl/key], the size of the buffer and the content
    type; the database is untouched. *)
Theorem uploadFile_success (fileBuffer : list Byte.byte)
    (key contentType : string) (w : World) (status : Z) :
  isConfigured this = true ->
  server (log w) (put_request this fileBuffer key contentType) = Resolved status ->
  uploadFile server this fileBuffer key contentType w =
  (Ok (mkUpload key (JS.to_str (serverBaseUrl this) ++ "/" ++ key)
                (Z.of_nat (List.length fileBuffer)) contentType),
   mkWorld (products w) (product_images w) (next_image_id w)
     (log w ++ [Http (put_request this fileBuffer key contentType)])).
Proof.
  intros Hc Hs. rewrite (uploadFile_configured _ _ _ _ Hc), Hs.
  destruct (configured_public_url key Hc) as [_ [-> _]]. reflexivity.
Qed.

(** X11: [uploadFile] on a client that is not configured throws the
    configuration error without sending anything; when the storage rejects
    the PUT it throws [Bunny CDN upload failed: <message>], a fresh error
    that no longer carries the response status, after that one request. *)
Theorem uploadFile_failure (fileBuffer : list Byte.byte)
    (key contentType : string) (w : World) :
  (isConfigured this = false ->
   uploadFile server this fileBuffer key contentType w
   = (Throw (Error not_configured), w)) /\
  (forall msg st txt,
     isConfigured this = true ->
     server (log w) (put_request this fileBuffer key contentType)
     = Rejected msg st txt ->
     uploadFile server this fileBuffer key contentType w
     = (Throw (mkError ("Bunny CDN upload failed: " ++ msg) None None),
        record (Http (put_request this fileBuffer key contentType)) w)).
Proof.
  split.
  - unfold uploadFile. now intros ->.
  - intros msg st txt Hc Hs.
    rewrite (uploadFile_configured _ _ _ _ Hc), Hs. reflexivity.
Qed.

(** X12: [deleteFile] returns [true] exactly when the client is configured
    and the storage accepts the DELETE; a rejected DELETE throws
    [Bunny CDN delete failed: <message>]; a client that is not configured
    throws without sending anything.  In every case at most the one DELETE
    for [storageUrl/key] is sent and the database is untouched. *)
Theorem deleteFile_outcomes (key : string) (w : World) :
  (fst (deleteFile server this key w) = Ok true <->
   isConfigured this = true /\
   exists status, server (log w) (delete_request this key) = Resolved status) /\
  (forall msg st txt,
     isConfigured this = true ->
     server (log w) (delete_request this key) = Rejected msg st txt ->
     fst (deleteFile server this key w)
     = Throw (Error ("Bunny CDN delete failed: " ++ msg))) /\
  (isConfigured this = false ->
   deleteFile server this key w = (Throw (Error not_configured), w)) /\
  database (snd (deleteFile server this key w)) = database w /\
  (log (snd (deleteFile server this key w)) = log w \/
   log (snd (deleteFile server this key w))
   = (log w ++ [Http (delete_request this key)])%list).
Proof.
  destruct (isConfigured this) eqn:Hc.
  - rewrite (deleteFile_configured server this key w Hc). cbn [fst snd].
    split; [|split; [|split; [discriminate|split; [reflexivity|now right]]]].
    + destruct (server (log w) (delete_request this key)) as [status|msg st txt].
      * split; [intros _; split; [reflexivity|now exists status]|reflexivity].
      * split; [discriminate|]. intros [_ [status Hs]]. discriminate Hs.
    + intros msg st txt _ ->. reflexivity.
  - rewrite (deleteFile_unconfigured server this key w Hc). cbn [fst snd].
    split; [|split; [|split; [reflexivity|split; [reflexivity|now left]]]].
    + split; [discriminate|]. intros [H _]. discriminate H.
    + intros msg st txt H. discriminate H.
Qed.

(** X13: [testConnection] never throws; it reports success exactly when the
    client is configured and the storage answers the GET on [storageUrl/];
    a client that is not configured is reported as such without any
    request; the database is untouched. *)
Theorem testConnection_reports (w : World) :
  (exists report,
      fst (testConnection server this w) = Ok report /\
      (success report = true <->
       isConfigured this = true /\
       exists status, server (log w) (probe_request this) = Resolved status) /\
      (forall msg st txt,
         isConfigured this = true ->
         server (log w) (probe_request this) = Rejected msg st txt ->
         report = mkTest false (Some msg) st txt None)) /\
  (isConfigured this = false -> snd (testConnection server this w) = w) /\
  (isConfigured this = true ->
   snd (testConnection server this w)
   = record (Http (probe_request this)) w) /\
  database (snd (testConnection server this w)) = database w.
Proof.
  destruct (isConfigured this) eqn:Hc.
  - rewrite (testConnection_configured server this w Hc). cbn [fst snd].
    split; [|split; [discriminate|split; reflexivity]].
    eexists. split; [reflexivity|].
    destruct (server (log w) (probe_request this)) as [status|msg st txt];
      cbn [success]; split.
    + split; [intros _; split; [reflexivity|now exists status]|reflexivity].
    + intros msg st txt _ H. discriminate H.
    + split; [discriminate|]. intros [_ [status Hs]]. discriminate Hs.
    + intros msg' st' txt' _ H. injection H as <- <- <-. reflexivity.
  - rewrite (testConnection_unconfigured server this w Hc). cbn [fst snd].
    split; [|split; [reflexivity|split; [discriminate|reflexivity]]].
    eexists. split; [reflexivity|]. cbn [success]. split.
    + split; [discriminate|]. intros [H _]. discriminate H.
    + intros msg st txt H. discriminate H.
Qed.

(** X14: deleting the keys of two lists in one call is deleting the first
    list and then the second: the two results are joined side by side, and
    the second call starts from the world the first one left. *)
Theorem deleteFiles_app (keys1 keys2 : list string) (w : World) :
  exists r1 w1 r2 w2,
    deleteFiles server this keys1 w = (Ok r1, w1) /\
    deleteFiles server this keys2 w1 = (Ok r2, w2) /\
    deleteFiles server this (keys1 ++ keys2) w
    = (Ok (mkResults (successful r1 ++ successful r2) (failed r1 ++ failed r2)),
       w2).
Proof.
  unfold deleteFiles. rewrite !deleteFiles_loop_spec.
  eexists _, _. rewrite deleteFiles_loop_spec. eexists _, _.
  split; [reflexivity|]. split; [reflexivity|].
  cbn [successful failed app].
  assert (Happ : forall ks1 w0,
            attempt_each server this (ks1 ++ keys2) w0 =
            (fst (attempt_each server this ks1 w0) ++
             fst (attempt_each server this keys2
                    (snd (attempt_each server this ks1 w0))),
             snd (attempt_each server this keys2
                    (snd (attempt_each server this ks1 w0))))%list).
  { induction ks1 as [|k ks1 IH]; intros w0.
    - cbn. now destruct (attempt_each server this keys2 w0).
    - cbn [app attempt_each].
      destruct (deleteFile server this k w0) as [o w1]. rewrite IH.
      destruct (attempt_each server this ks1 w1) as [os w2]. reflexivity. }
  rewrite Happ. cbn [fst snd]. unfold succeeded, failures.
  rewrite !flat_map_app. reflexivity.
Qed.

(** X15: whatever the client and the storage do, [deleteFiles] leaves the
    database untouched and adds nothing to the calls made but DELETE
    requests, at most one per key. *)
Theorem deleteFiles_only_deletes (keys : list string) (w : World) :
  database (snd (deleteFiles server this keys w)) = database w /\
  exists calls,
    log (snd (deleteFiles server this keys w)) = (log w ++ calls)%list /\
    forallb is_delete calls = true /\
    List.length calls <= List.length keys.
Proof.
  unfold deleteFiles. rewrite deleteFiles_loop_spec. cbn [snd].
  destruct (isConfigured this) eqn:Hc.
  - destruct (attempt_each_configured server this keys Hc w) as [Hlog Hdb].
    split; [exact Hdb|].
    exists (map (fun key => Http (delete_request this key)) keys).
    split; [exact Hlog|]. rewrite length_map. split; [|lia].
    clear. induction keys as [|k ks IH]; [reflexivity|exact IH].
  - rewrite (attempt_each_unconfigured server this keys Hc w). cbn [snd].
    split; [reflexivity|]. exists []. rewrite app_nil_r.
    split; [reflexivity|]. split; [reflexivity|cbn; lia].
Qed.

(** X16: upload, then resolve.  The record stored for an uploaded file (its
    key and the URL the upload returned) resolves, under the same public
    base, to the URL the upload returned, for every key that is not empty
    and holds neither [amazonaws.com/] nor [s3://]. *)
Theorem upload_then_resolve (fileBuffer : list Byte.byte)
    (key contentType : string) (w w' : World) (up : UploadResult)
    (product : Z) :
  uploadFile server this fileBuffer key contentType w = (Ok up, w') ->
  key <> "" ->
  JS.includes key "amazonaws.com/" = false ->
  JS.includes key "s3://" = false ->
  ProductImage.cdn_url (serverBaseUrl this) (uploaded_image product up)
  = Some (up_url up).
Proof.
  intros Hup Hne Hamazon Hs3.
  assert (Hc : isConfigured this = true).
  { destruct (isConfigured this) eqn:Hc; [reflexivity|].
    unfold uploadFile in Hup. rewrite Hc in Hup. discriminate Hup. }
  rewrite (uploadFile_configured _ _ _ _ Hc) in Hup.
  destruct (server (log w) (put_request this fileBuffer key contentType));
    [|discriminate Hup].
  injection Hup as <- _.
  destruct (configured_public_url key Hc) as [_ [Hurl Hbase]].
  cbn [up_url].
  set (stored := uploaded_image product
                   (mkUpload key (getPublicUrl this key)
                      (Z.of_nat (List.length fileBuffer)) contentType)).
  destruct (ProductImage.returns_url_early stored) eqn:He.
  - rewrite (cdn_url_early _ _ He). reflexivity.
  - destruct (cdn_url_plain_key_holds (serverBaseUrl this) stored key
                eq_refl Hne Hamazon Hs3 He) as [-> _].
    now rewrite Hbase, Hurl.
Qed.

End MoreService.

Section MoreKeys.
Import BunnyCDNService.

Lemma is_key_char_underscore : is_key_char "_" = true.
Proof. reflexivity. Qed.

(** X17: sanitizing twice is sanitizing once, and a name made of letters,
    digits, hyphens and underscores only is left as it is. *)
Theorem sanitize_idempotent (s : string) :
  sanitize (sanitize s) = sanitize s /\
  (forallb is_key_char (list_ascii_of_string s) = true -> sanitize s = s).
Proof.
  split.
  - induction s as [|c s IH]; [reflexivity|].
    cbn [sanitize]. rewrite IH.
    destruct (is_key_char c) eqn:E; [now rewrite E|].
    now rewrite is_key_char_underscore.
  - induction s as [|c s IH]; [reflexivity|].
    cbn [list_ascii_of_string forallb sanitize]. intros H.
    apply andb_true_iff in H. destruct H as [Hc Hs].
    now rewrite Hc, (IH Hs).
Qed.

(** X18: [remove_extension] only ever cuts at the end: the name is the
    result followed by nothing, or by a dot and one or more characters other
    than dot and slash; a name without a dot is left as it is. *)
Theorem remove_extension_cuts_suffix (s : string) :
  (exists suffix,
      s = (remove_extension s ++ suffix)%string /\
      (suffix = "" \/ is_extension suffix = true)) /\
  (JS.includes s "." = false -> remove_extension s = s).
Proof.
  split.
  - induction s as [|c s [suffix [Hs Hsuffix]]].
    + exists "". split; [reflexivity|now left].
    + cbn [remove_extension].
      destruct (is_extension (String c s)) eqn:E.
      * exists (String c s). split; [reflexivity|now right].
      * exists suffix. split; [|exact Hsuffix].
        cbn [append]. now rewrite <- Hs.
  - induction s as [|c s IH]; [reflexivity|]. intros H.
    apply includes_cons_false in H. destruct H as [Hc Hs].
    cbn [remove_extension].
    assert (E : is_extension (String c s) = false).
    { unfold is_extension. destruct s as [|d s]; [reflexivity|].
      cbn [JS.startsWith] in Hc. rewrite andb_true_r in Hc.
      rewrite Ascii.eqb_sym, Hc. reflexivity. }
    now rewrite E, (IH Hs).
Qed.

End MoreKeys.

(** ** More on the migration script *)

Section MoreMigrationRuns.
Import Effects BunnyCDNService Statements Requests Migration.

Variable server : list Event -> Request -> Reply.
Variable refusal : list Event -> Query -> option JsError.
Variable service : BunnyCDNService.t.

Lemma run_until_upload (w : World) (status : Z) :
  isConfigured service = true ->
  server (log w) (probe_request service) = Resolved status ->
  answers_all refusal ->
  product_images w <> [] ->
  migrateToBunnyCDN_try server refusal service w =
  bind (uploadFile server service testImageBuffer testKey "image/png")
       (fun _ => bind (deleteFile server service testKey) (fun _ => ret tt))
       (purged service w).
Proof.
  intros Hc Hprobe Hall Hrows.
  unfold migrateToBunnyCDN_try. rewrite Hc. cbn [negb].
  unfold bind at 1. rewrite (testConnection_configured server service w Hc), Hprobe.
  cbn [success negb].
  unfold bind at 1. unfold ProductImage_count at 1. unfold query at 1.
  rewrite Hall.
  unfold bind at 1. unfold Product_count_with_images at 1. unfold query at 1.
  rewrite Hall.
  cbn [record product_images].
  destruct (product_images w) as [|row rows] eqn:E; [now elim Hrows|].
  cbn [List.length]. rewrite Nat2Z.inj_succ.
  assert (Hz : (Z.succ (Z.of_nat (List.length rows)) =? 0)%Z = false)
    by (apply Z.eqb_neq; lia).
  rewrite Hz.
  unfold bind at 1. unfold ProductImage_findAll at 1. unfold query at 1.
  rewrite Hall.
  unfold bind at 1. unfold ProductImage_destroy_all at 1. unfold query at 1.
  rewrite Hall.
  unfold bind at 1. unfold ProductImage_count at 1. unfold query at 1.
  rewrite Hall.
  unfold bind at 1. unfold Product_count_with_images at 1. unfold query at 1.
  rewrite Hall.
  unfold purged, record, setImages.
  cbn [products product_images next_image_id log firstn full_run].
  rewrite <- !app_assoc. reflexivity.
Qed.

(** A run on a table that is not empty, after a successful probe and with
    every query answered: what happens is decided by the answers to the PUT
    and to the DELETE. *)
Lemma run_after_purge (w : World) (status : Z) :
  isConfigured service = true ->
  server (log w) (probe_request service) = Resolved status ->
  answers_all refusal ->
  product_images w <> [] ->
  let put := put_request service testImageBuffer testKey "image/png" in
  let del := delete_request service testKey in
  migrateToBunnyCDN server refusal service w =
  match server (log (purged service w)) put with
  | Rejected _ _ _ => (ProcessExit 1, record (Http put) (purged service w))
  | Resolved _ =>
      match server (log (record (Http put) (purged service w))) del with
      | Resolved _ =>
          (Returned, record (Http del) (record (Http put) (purged service w)))
      | Rejected _ _ _ =>
          (ProcessExit 1, record (Http del) (record (Http put) (purged service w)))
      end
  end.
Proof.
  intros Hc Hprobe Hall Hrows put del. subst put del.
  unfold migrateToBunnyCDN.
  rewrite (run_until_upload w status Hc Hprobe Hall Hrows).
  unfold bind at 1.
  rewrite (uploadFile_configured server service _ _ _ _ Hc).
  destruct (server (log (purged service w)) _); [|reflexivity].
  unfold bind at 1.
  rewrite (deleteFile_configured server service _ _ Hc).
  destruct (server _ (delete_request service testKey)); reflexivity.
Qed.

(** X19: on a client that is not configured the script returns at once: no
    call at all is made and the world is as it was. *)
Theorem migrate_unconfigured (w : World) :
  isConfigured service = false ->
  migrateToBunnyCDN server refusal service w = (Returned, w).
Proof.
  intros Hc. unfold migrateToBunnyCDN, migrateToBunnyCDN_try.
  now rewrite Hc.
Qed.

(** X20: with a configured client, a storage that accepts every request, a
    database that answers every query and a table that is not empty, the
    script returns normally, the table is empty afterwards, the products are
    untouched, and the calls are, in order: the probe, the two counts, the
    sample of 5, the delete of all rows, the two counts again, the PUT of
    the test image and the DELETE of the same key. *)
Theorem migrate_full_run (w : World) :
  isConfigured service = true ->
  (forall calls r, exists status, server calls r = Resolved status) ->
  answers_all refusal ->
  product_images w <> [] ->
  migrateToBunnyCDN server refusal service w =
  (Returned,
   mkWorld (products w) [] (next_image_id w) (log w ++ full_run service)).
Proof.
  intros Hc Hserver Hall Hrows.
  destruct (Hserver (log w) (probe_request service)) as [st Hprobe].
  rewrite (run_after_purge w st Hc Hprobe Hall Hrows). cbv zeta.
  destruct (Hserver (log (purged service w))
              (put_request service testImageBuffer testKey "image/png"))
    as [st1 ->].
  destruct (Hserver
              (log (record (Http (put_request service testImageBuffer testKey
                                    "image/png")) (purged service w)))
              (delete_request service testKey)) as [st2 ->].
  unfold purged, record.
  cbn [products product_images next_image_id log firstn full_run].
  rewrite <- !app_assoc. reflexivity.
Qed.

(** X21: when every query is answered and the storage refuses the PUT of
    the upload test, the script ends with [process.exit(1)] after the rows
    are deleted: the table stays empty, and no DELETE is sent for the test
    key. *)
Theorem migrate_upload_refused (w : World) (status : Z) (msg : string)
    (st : option Z) (txt : option string) :
  isConfigured service = true ->
  server (log w) (probe_request service) = Resolved status ->
  answers_all refusal ->
  product_images w <> [] ->
  server (log w ++ firstn 7 (full_run service))
         (put_request service testImageBuffer testKey "image/png")
  = Rejected msg st txt ->
  migrateToBunnyCDN server refusal service w =
  (ProcessExit 1,
   mkWorld (products w) [] (next_image_id w)
     (log w ++ firstn 8 (full_run service))).
Proof.
  intros Hc Hprobe Hall Hrows Hput.
  rewrite (run_after_purge w status Hc Hprobe Hall Hrows). cbv zeta.
  unfold purged at 1. cbn [log]. rewrite Hput.
  unfold purged, record.
  cbn [products product_images next_image_id log firstn full_run].
  rewrite <- !app_assoc. reflexivity.
Qed.







End MoreMigrationRuns.

(** ** The connectivity-test route *)

Section Route.
Import Effects BunnyCDNService Statements BunnyTestRoute.

Variable server : list Event -> Request -> Reply.
Variable env : Env.
Variable service : BunnyCDNService.t.

(** X23: the handler always answers, and never with the body of its
    [catch] branch.  It answers 500 exactly when the client is not
    configured, and then without any request to the storage; for a
    configured client it answers 200 even when the storage is unreachable:
    the body then carries [success: false] with the report of the probe. *)
Theorem get_bunny_cdn_answers (w : World) :
  exists response,
    fst (get_bunny_cdn server env service w) = Ok response /\
    (forall error, body response <> Failed error) /\
    (status response = 500%Z <-> isConfigured service = false) /\
    (status response = 200%Z <-> isConfigured service = true) /\
    (isConfigured service = false ->
     snd (get_bunny_cdn server env service w) = w /\
     exists details,
       body response = NotConfigured "Bunny CDN is not properly configured" details) /\
    (isConfigured service = true ->
     snd (get_bunny_cdn server env service w)
     = record (Http (probe_request service)) w /\
     exists report environment,
       fst (testConnection server service w) = Ok report /\
       body response = Tested (success report) true report environment /\
       (success report = true <->
        exists code, server (log w) (probe_request service) = Resolved code)).
Proof.
  unfold get_bunny_cdn, try_catch.
  destruct (isConfigured service) eqn:Hc; cbn [negb].
  - unfold bind. rewrite (testConnection_configured server service w Hc).
    unfold ret. cbn [fst snd]. eexists. split; [reflexivity|].
    cbn [status body]. split; [discriminate|].
    split; [split; discriminate|]. split; [split; reflexivity|].
    split; [discriminate|]. intros _. split; [reflexivity|].
    eexists _, _. split; [reflexivity|]. split; [reflexivity|].
    destruct (server (log w) (probe_request service)) as [code|msg st txt];
      cbn [success]; split.
    + intros _. now exists code.
    + reflexivity.
    + discriminate.
    + intros [code H]. discriminate H.
  - unfold ret. cbn [fst snd]. eexists. split; [reflexivity|].
    cbn [status body]. split; [discriminate|].
    split; [split; reflexivity|]. split; [split; discriminate|].
    split; [|discriminate]. intros _. split; [reflexivity|].
    eexists. reflexivity.
Qed.

End Route.

(** ** The [cart_items] migration *)

Section CartItems.
Import Effects CartItemsMigration CartItemsSteps.

Variable queryInterface : list SchemaCall -> SchemaCall -> option JsError.

Lemma and_then_done (m : Step unit) (calls : list SchemaCall) :
  and_then m (fun _ => done tt) calls = m calls.
Proof.
  unfold and_then, done. destruct (m calls) as [[[]|e] calls']; reflexivity.
Qed.

(** [up] is the creation of the table followed by the four indexes. *)
Lemma up_as_steps (calls : list SchemaCall) :
  up queryInterface calls =
  and_then (await queryInterface (CreateTable "cart_items" cart_items_columns))
           (fun _ => add_each queryInterface cart_items_indexes) calls.
Proof.
  unfold up, cart_items_indexes, and_then. cbn [add_each].
  destruct (await queryInterface _ calls) as [[[]|e] c0]; [|reflexivity].
  unfold and_then.
  destruct (addIndex_unless_present queryInterface idx_cart_id c0)
    as [[[]|e1] c1]; [|reflexivity].
  destruct (addIndex_unless_present queryInterface idx_product_id c1)
    as [[[]|e2] c2]; [|reflexivity].
  destruct (addIndex_unless_present queryInterface idx_sku c2)
    as [[[]|e3] c3]; [|reflexivity].
  destruct (addIndex_unless_present queryInterface uniq_cart_sku c3)
    as [[[]|e4] c4]; reflexivity.
Qed.

Lemma addIndex_tolerated (c : SchemaCall) (calls : list SchemaCall) :
  tolerated (queryInterface calls c) ->
  addIndex_unless_present queryInterface c calls = (Ok tt, (calls ++ [c])%list).
Proof.
  unfold addIndex_unless_present, catching, await, tolerated.
  destruct (queryInterface calls c) as [e|]; [|reflexivity].
  now intros ->.
Qed.

Lemma addIndex_refused (c : SchemaCall) (calls : list SchemaCall) (e : JsError) :
  queryInterface calls c = Some e ->
  JS.includes (message e) "Duplicate key name" = false ->
  addIndex_unless_present queryInterface c calls = (Throw e, (calls ++ [c])%list).
Proof.
  unfold addIndex_unless_present, catching, await.
  now intros -> ->.
Qed.

Lemma add_each_tolerated (indexes : list SchemaCall) :
  forall calls,
    (forall c history, In c indexes -> tolerated (queryInterface history c)) ->
    add_each queryInterface indexes calls = (Ok tt, (calls ++ indexes)%list).
Proof.
  induction indexes as [|c rest IH]; intros calls Hall.
  - cbn. now rewrite app_nil_r.
  - cbn [add_each]. unfold and_then.
    rewrite (addIndex_tolerated c calls) by (apply Hall; now left).
    rewrite IH by (intros c' h Hc'; apply Hall; now right).
    now rewrite <- app_assoc.
Qed.

Lemma add_each_refused (before after : list SchemaCall) (c : SchemaCall)
    (e : JsError) :
  forall calls,
    (forall c' history, In c' before -> tolerated (queryInterface history c')) ->
    (forall history, queryInterface history c = Some e) ->
    JS.includes (message e) "Duplicate key name" = false ->
    add_each queryInterface (before ++ c :: after) calls
    = (Throw e, (calls ++ before ++ [c])%list).
Proof.
  induction before as [|b before IH]; intros calls Hall Hc He.
  - cbn [app add_each]. unfold and_then.
    now rewrite (addIndex_refused c calls e (Hc calls) He).
  - cbn [app add_each]. unfold and_then.
    rewrite (addIndex_tolerated b calls) by (apply Hall; now left).
    rewrite IH; [|intros c' h Hc'; apply Hall; now right|exact Hc|exact He].
    now rewrite <- app_assoc.
Qed.

(** X24: when the table can be created and every index is either added or
    refused with a message that holds [Duplicate key name], [up] completes:
    it creates the table and then attempts all four indexes, in order,
    whichever of them exist already. *)
Theorem up_completes (calls : list SchemaCall) :
  queryInterface calls (CreateTable "cart_items" cart_items_columns) = None ->
  (forall c history, In c cart_items_indexes ->
     tolerated (queryInterface history c)) ->
  up queryInterface calls =
  (Ok tt,
   (calls ++ CreateTable "cart_items" cart_items_columns :: cart_items_indexes)%list).
Proof.
  intros Hcreate Hall. rewrite up_as_steps. unfold and_then, await at 1.
  rewrite Hcreate, (add_each_tolerated _ _ Hall).
  now rewrite <- app_assoc.
Qed.

(** X25: [up] stops at the first failure that is not a duplicate index.  If
    the table cannot be created, that error is thrown and no index is
    attempted.  If an index is refused with a message without
    [Duplicate key name], after indexes that were added or were duplicates,
    that same error is thrown and the indexes after it are not attempted. *)
Theorem up_stops_at_first_failure (calls : list SchemaCall) :
  (forall e,
     queryInterface calls (CreateTable "cart_items" cart_items_columns) = Some e ->
     up queryInterface calls =
     (Throw e, (calls ++ [CreateTable "cart_items" cart_items_columns])%list)) /\
  (forall before c after e,
     cart_items_indexes = (before ++ c :: after)%list ->
     queryInterface calls (CreateTable "cart_items" cart_items_columns) = None ->
     (forall c' history, In c' before -> tolerated (queryInterface history c')) ->
     (forall history, queryInterface history c = Some e) ->
     JS.includes (message e) "Duplicate key name" = false ->
     up queryInterface calls =
     (Throw e,
      (calls ++ CreateTable "cart_items" cart_items_columns :: before ++ [c])%list)).
Proof.
  split.
  - intros e Hcreate. rewrite up_as_steps. unfold and_then, await at 1.
    now rewrite Hcreate.
  - intros before c after e Hsplit Hcreate Hall Hc He.
    rewrite up_as_steps, Hsplit. unfold and_then, await at 1.
    rewrite Hcreate, (add_each_refused before after c e _ Hall Hc He).
    now rewrite <- app_assoc.
Qed.

End CartItems.

(** ** The further properties on sample inputs *)

Lemma cdn_url_without_key_witness :
  ProductImage.cdn_url Samples.cdn MoreSamples.keyless
  = Some "https://shop.example.com/a.png".
Proof.
  exact (cdn_url_without_key Samples.cdn MoreSamples.keyless eq_refl).
Defined.

Lemma cdn_url_bunny_identity_witness :
  ProductImage.cdn_url Samples.cdn
    (Samples.image (Some "https://shop.b-cdn.net/old/a.png")
                   (Some "s3://bucket/products/7/a.png"))
  = Some "https://shop.b-cdn.net/old/a.png".
Proof.
  apply (cdn_url_bunny_identity Samples.cdn
           (Samples.image (Some "https://shop.b-cdn.net/old/a.png")
                          (Some "s3://bucket/products/7/a.png"))
           "https://shop.b-cdn.net/old/a.png"); reflexivity.
Defined.

Lemma cdn_url_amazon_key_witness :
  ProductImage.cdn_url Samples.cdn MoreSamples.amazon_key
  = Some ("https://cdn.example.com" ++ "/" ++ "products/7/a.png").
Proof.
  apply (cdn_url_amazon_key Samples.cdn MoreSamples.amazon_key
           "https://bucket.s3." "products/7/a.png"); reflexivity.
Defined.

Lemma cdn_url_amazon_key_twice_witness :
  ProductImage.cdn_url Samples.cdn
    (Samples.image (Some "https://shop.example.com/a.png")
       (Some "https://b.s3.amazonaws.com/mirror/amazonaws.com/a.png"))
  = Some ("https://cdn.example.com" ++ "/" ++ "mirror/").
Proof.
  apply (cdn_url_amazon_key_twice Samples.cdn
           (Samples.image (Some "https://shop.example.com/a.png")
              (Some "https://b.s3.amazonaws.com/mirror/amazonaws.com/a.png"))
           "https://b.s3." "mirror/" "a.png"); reflexivity.
Defined.

Lemma cdn_url_plain_key_witness :
  ProductImage.cdn_url Samples.cdn
    (Samples.image (Some "https://shop.example.com/a.png")
                   (Some "products/7/a.png"))
  = Some ("https://cdn.example.com" ++ "/" ++ "products/7/a.png") /\
  ProductImage.cdn_url Samples.cdn
    (Samples.image (Some "https://shop.example.com/a.png")
                   (Some "products/7/a.png"))
  = ProductImage.getFullS3Url Samples.cdn
      (Samples.image (Some "https://shop.example.com/a.png")
                     (Some "products/7/a.png")).
Proof.
  apply (cdn_url_plain_key Samples.cdn
           (Samples.image (Some "https://shop.example.com/a.png")
                          (Some "products/7/a.png"))
           "products/7/a.png"); (reflexivity || discriminate).
Defined.

Lemma number_tests_witness :
  ProductImageMethods.getDimensions
    (ProductImage.mk None 7 None None None None (Some 800%Z) (Some 600%Z)
       ProductImage.original None None None)
  = Some "800x600".
Proof.
  destruct (number_tests
              (ProductImage.mk None 7 None None None None (Some 800%Z)
                 (Some 600%Z) ProductImage.original None None None))
    as [[_ Hvalid] [Hdim _]].
  apply (Hdim 800%Z 600%Z); [reflexivity|reflexivity|].
  apply Hvalid. exists 800%Z, 600%Z. repeat split.
Defined.

Lemma beforeCreate_next_position_witness :
  exists n,
    fst (Hooks.beforeCreate
           (Samples.image None (Some "products/7/b.png"))
           (Effects.mkWorld [Samples.shirt]
              [ProductImage.withPosition Samples.stored (Some 3%Z)] 2 []))
    = Effects.Ok
        (ProductImage.withPosition
           (Samples.image None (Some "products/7/b.png")) (Some n)) /\
    (3 < n)%Z.
Proof.
  destruct (beforeCreate_next_position
              (Samples.image None (Some "products/7/b.png"))
              (ProductImage.withPosition Samples.stored (Some 3%Z)) 3
              (Effects.mkWorld [Samples.shirt]
                 [ProductImage.withPosition Samples.stored (Some 3%Z)] 2 [])
              eq_refl (or_introl eq_refl) eq_refl eq_refl eq_refl)
    as [n [Hn [Habove _]]].
  exists n. split; [exact Hn|].
  apply (Habove (ProductImage.withPosition Samples.stored (Some 3%Z)));
    [now left|reflexivity|reflexivity].
Defined.

Lemma hooks_change_only_missing_fields_witness :
  Hooks.beforeValidate Samples.stored Samples.populated_world
  = (Effects.Ok Samples.stored, Samples.populated_world) /\
  Hooks.beforeCreate Samples.stored Samples.populated_world
  = (Effects.Ok Samples.stored, Samples.populated_world).
Proof.
  destruct (hooks_change_only_missing_fields Samples.stored
              Samples.populated_world)
    as [[a [_ Halt]] [_ [[p [_ Hpos]] _]]].
  split; [apply Halt; reflexivity|apply (Hpos 0%Z); reflexivity].
Defined.

Lemma beforeValidate_derives_alt_witness :
  fst (Hooks.beforeValidate
         (Samples.image (Some "https://cdn.example.com/products/7/b.png")
                        (Some "products/7/b.png"))
         Samples.empty_world)
  = Effects.Ok
      (ProductImage.withAlt
         (Samples.image (Some "https://cdn.example.com/products/7/b.png")
                        (Some "products/7/b.png"))
         (Some "Shirt - Product Image")).
Proof.
  destruct (beforeValidate_derives_alt
              (Samples.image (Some "https://cdn.example.com/products/7/b.png")
                             (Some "products/7/b.png"))
              Samples.empty_world eq_refl) as [Hrun _]; [discriminate|].
  rewrite Hrun. reflexivity.
Defined.

Lemma uploadFile_success_witness :
  fst (BunnyCDNService.uploadFile Samples.server_ok Samples.service
         Migration.testImageBuffer "products/7/a.png" "image/png"
         Samples.empty_world)
  = Effects.Ok
      (BunnyCDNService.mkUpload "products/7/a.png"
         "https://cdn.example.com/products/7/a.png" 70 "image/png").
Proof.
  rewrite (uploadFile_success Samples.server_ok Samples.service
             Migration.testImageBuffer "products/7/a.png" "image/png"
             Samples.empty_world 200 eq_refl eq_refl).
  reflexivity.
Defined.

Lemma uploadFile_failure_witness :
  BunnyCDNService.uploadFile MoreSamples.server_refusing_put Samples.service
    Migration.testImageBuffer "products/7/a.png" "image/png" Samples.empty_world
  = (Effects.Throw
       (Effects.mkError
          "Bunny CDN upload failed: Request failed with status code 403"
          None None),
     Effects.record
       (Effects.Http
          (Requests.put_request Samples.service Migration.testImageBuffer
             "products/7/a.png" "image/png"))
       Samples.empty_world) /\
  BunnyCDNService.uploadFile Samples.server_ok Samples.unconfigured
    Migration.testImageBuffer "products/7/a.png" "image/png" Samples.empty_world
  = (Effects.Throw (Effects.Error BunnyCDNService.not_configured),
     Samples.empty_world).
Proof.
  split.
  - apply (proj2 (uploadFile_failure MoreSamples.server_refusing_put
                    Samples.service Migration.testImageBuffer
                    "products/7/a.png" "image/png" Samples.empty_world)
             "Request failed with status code 403" (Some 403%Z)
             (Some "Forbidden")); reflexivity.
  - apply (proj1 (uploadFile_failure Samples.server_ok Samples.unconfigured
                    Migration.testImageBuffer "products/7/a.png" "image/png"
                    Samples.empty_world)). reflexivity.
Defined.

Lemma deleteFile_outcomes_witness :
  fst (BunnyCDNService.deleteFile Samples.server_ok Samples.service "a"
         Samples.empty_world) = Effects.Ok true /\
  fst (BunnyCDNService.deleteFile Samples.server_failing_b Samples.service "b"
         Samples.empty_world)
  = Effects.Throw
      (Effects.Error
         "Bunny CDN delete failed: Request failed with status code 404").
Proof.
  split.
  - apply (proj1 (deleteFile_outcomes Samples.server_ok Samples.service "a"
                    Samples.empty_world)).
    split; [reflexivity|now exists 200%Z].
  - apply (proj1 (proj2 (deleteFile_outcomes Samples.server_failing_b
                           Samples.service "b" Samples.empty_world))
             "Request failed with status code 404" (Some 404%Z)
             (Some "Not Found")); reflexivity.
Defined.

Lemma testConnection_reports_witness :
  exists report,
    fst (BunnyCDNService.testConnection Samples.server_401 Samples.service
           Samples.empty_world) = Effects.Ok report /\
    report = BunnyCDNService.mkTest false
               (Some "Request failed with status code 401") (Some 401%Z)
               (Some "Unauthorized") None.
Proof.
  destruct (testConnection_reports Samples.server_401 Samples.service
              Samples.empty_world) as [[report [Hrun [_ Hrej]]] _].
  exists report. split; [exact Hrun|].
  apply Hrej; reflexivity.
Defined.

Lemma upload_then_resolve_witness :
  ProductImage.cdn_url (BunnyCDNService.serverBaseUrl Samples.service)
    (Requests.uploaded_image 7
       (BunnyCDNService.mkUpload "products/7/a.png"
          "https://cdn.example.com/products/7/a.png" 70 "image/png"))
  = Some "https://cdn.example.com/products/7/a.png".
Proof.
  apply (upload_then_resolve Samples.server_ok Samples.service
           Migration.testImageBuffer "products/7/a.png" "image/png"
           Samples.empty_world
           (Effects.record
              (Effects.Http
                 (Requests.put_request Samples.service Migration.testImageBuffer
                    "products/7/a.png" "image/png"))
              Samples.empty_world)
           (BunnyCDNService.mkUpload "products/7/a.png"
              "https://cdn.example.com/products/7/a.png" 70 "image/png") 7);
    (reflexivity || discriminate).
Defined.

Lemma sanitize_idempotent_witness :
  BunnyCDNService.sanitize "front-view_2" = "front-view_2".
Proof.
  apply (proj2 (sanitize_idempotent "front-view_2")). reflexivity.
Defined.

Lemma remove_extension_cuts_suffix_witness :
  BunnyCDNService.remove_extension "README" = "README".
Proof.
  apply (proj2 (remove_extension_cuts_suffix "README")). reflexivity.
Defined.

Lemma migrate_unconfigured_witness :
  Migration.migrateToBunnyCDN Samples.server_ok Samples.database_down
    Samples.unconfigured Samples.populated_world
  = (Migration.Returned, Samples.populated_world).
Proof.
  exact (migrate_unconfigured Samples.server_ok Samples.database_down
           Samples.unconfigured Samples.populated_world eq_refl).
Defined.

Lemma migrate_full_run_witness :
  Migration.migrateToBunnyCDN Samples.server_ok Samples.database_up
    Samples.service Samples.populated_world
  = (Migration.Returned,
     Effects.mkWorld [Samples.shirt] [] 2 (Requests.full_run Samples.service)).
Proof.
  apply (migrate_full_run Samples.server_ok Samples.database_up Samples.service
           Samples.populated_world).
  - reflexivity.
  - intros calls r. now exists 200%Z.
  - intros calls q. reflexivity.
  - discriminate.
Defined.

Lemma migrate_upload_refused_witness :
  Migration.migrateToBunnyCDN MoreSamples.server_refusing_put
    Samples.database_up Samples.service Samples.populated_world
  = (Migration.ProcessExit 1,
     Effects.mkWorld [Samples.shirt] [] 2
       (firstn 8 (Requests.full_run Samples.service))).
Proof.
  apply (migrate_upload_refused MoreSamples.server_refusing_put
           Samples.database_up Samples.service Samples.populated_world 200
           "Request failed with status code 403" (Some 403%Z) (Some "Forbidden"));
    try (reflexivity || discriminate).
  intros calls q. reflexivity.
Defined.


Lemma get_bunny_cdn_answers_witness :
  exists response,
    fst (BunnyTestRoute.get_bunny_cdn Samples.server_401
           (BunnyCDNService.mkEnv (Some "https://storage.bunnycdn.com/zone")
              (Some "https://cdn.example.com") (Some "secret"))
           Samples.service Samples.empty_world) = Effects.Ok response /\
    BunnyTestRoute.status response = 200%Z.
Proof.
  destruct (get_bunny_cdn_answers Samples.server_401
              (BunnyCDNService.mkEnv (Some "https://storage.bunnycdn.com/zone")
                 (Some "https://cdn.example.com") (Some "secret"))
              Samples.service Samples.empty_world)
    as [response [Hrun [_ [_ [H200 _]]]]].
  exists response. split; [exact Hrun|]. apply H200. reflexivity.
Defined.

Lemma up_completes_witness :
  CartItemsMigration.up MoreSamples.two_indexes_present []
  = (Effects.Ok tt,
     CartItemsMigration.CreateTable "cart_items"
       CartItemsMigration.cart_items_columns
     :: CartItemsMigration.cart_items_indexes).
Proof.
  apply (up_completes MoreSamples.two_indexes_present []).
  - reflexivity.
  - intros c history [<-|[<-|[<-|[<-|[]]]]]; (reflexivity || exact I).
Defined.

Lemma up_stops_at_first_failure_witness :
  CartItemsMigration.up MoreSamples.sku_index_refused []
  = (Effects.Throw (Effects.Error "Key column 'sku' doesn't exist in table"),
     [CartItemsMigration.CreateTable "cart_items"
        CartItemsMigration.cart_items_columns;
      CartItemsMigration.idx_cart_id; CartItemsMigration.idx_product_id;
      CartItemsMigration.idx_sku]).
Proof.
  apply (proj2 (up_stops_at_first_failure MoreSamples.sku_index_refused [])
           [CartItemsMigration.idx_cart_id; CartItemsMigration.idx_product_id]
           CartItemsMigration.idx_sku [CartItemsMigration.uniq_cart_sku]).
  - reflexivity.
  - reflexivity.
  - intros c history [<-|[<-|[]]]; exact I.
  - intros history. reflexivity.
  - reflexivity.
Defined.
